(** * gdb-colour-filter: a shallow embedding of [colour_filter.py]

    The development follows the source file top to bottom:
    - Python's [str] operations that the script uses ([find], slicing,
      [strip], [rsplit], [int], [hex], the [%] formats);
    - [FrameColorizer]: [length], [depth], [address], [filename], [line],
      [frame_args], [function] and [__str__];
    - [FilterProxy] and [ColourFilter.filter], as a state machine over the
      host's frame iterator and the output channel.

    Text is modelled by [string]: a sequence of characters with code points
    0..255.  Python integers are [Z] (or [N]/[nat] where the source only
    ever holds a non-negative value).  A Python exception is a value of
    [exn], and a call that may raise returns a [result]; the one [while]
    loop of the script runs on a step budget, and [OutOfFuel] is the
    outcome of a budget that ran out. *)

From Stdlib Require Import ZArith NArith Lia List Bool Ascii String.
From Stdlib Require DecimalString HexadecimalString.
From Stdlib Require DecimalPos DecimalN HexadecimalFacts HexadecimalPos HexadecimalN.
Import ListNotations.

Open Scope string_scope.
Open Scope Z_scope.

(** ** Exceptions and results *)

Inductive exn : Type :=
| NameError
| ValueError
| RuntimeError
| StopIteration.

Inductive result (A : Type) : Type :=
| Ok (a : A)
| Raise (e : exn)
| OutOfFuel.
Arguments Ok {A} a.
Arguments Raise {A} e.
Arguments OutOfFuel {A}.

Definition bind {A B : Type} (r : result A) (k : A -> result B) : result B :=
  match r with
  | Ok a => k a
  | Raise e => Raise e
  | OutOfFuel => OutOfFuel
  end.

Notation "x <- r ;; k" := (bind r (fun x => k))
  (at level 61, r at next level, right associativity).

(** ** Python string primitives *)

Module Py.

(** [len(s)] *)
Definition len (s : string) : Z := Z.of_nat (String.length s).

(** [s[n:]] for [n >= 0] *)
Fixpoint drop (n : nat) (s : string) : string :=
  match n, s with
  | O, _ => s
  | S n', String _ s' => drop n' s'
  | S _, EmptyString => EmptyString
  end.

(** [s[:n]] for [n >= 0] *)
Fixpoint take (n : nat) (s : string) : string :=
  match n, s with
  | S n', String c s' => String c (take n' s')
  | _, _ => EmptyString
  end.

(** [s[:k]]: a negative bound counts from the end of the string. *)
Definition slice_to (s : string) (k : Z) : string :=
  if k <? 0 then take (Z.to_nat (Z.max 0 (len s + k))) s
  else take (Z.to_nat k) s.

(** The scan behind [str.find]: [s] is the text that starts at absolute
    index [pos]; the answer is the lowest index at which [sub] occurs, or
    [-1]. *)
Fixpoint find_from (sub s : string) (pos : Z) : Z :=
  if prefix sub s then pos
  else match s with
       | EmptyString => -1
       | String _ s' => find_from sub s' (pos + 1)
       end.

(** [s.find(sub, start)] *)
Definition find (s sub : string) (start : Z) : Z :=
  let start := if start <? 0 then Z.max 0 (start + len s) else start in
  if len s <? start then -1
  else find_from sub (drop (Z.to_nat start) s) start.

(** [str.isspace] on one character, for the code points 0..255. *)
Definition isspace (c : ascii) : bool :=
  let n := N_of_ascii c in
  ((9 <=? n) && (n <=? 13) || (28 <=? n) && (n <=? 32)
   || (n =? 133) || (n =? 160))%N.

Fixpoint lstrip (s : string) : string :=
  match s with
  | String c s' => if isspace c then lstrip s' else s
  | EmptyString => EmptyString
  end.

Fixpoint rstrip (s : string) : string :=
  match s with
  | EmptyString => EmptyString
  | String c s' =>
      match rstrip s' with
      | EmptyString => if isspace c then EmptyString else String c EmptyString
      | t => String c t
      end
  end.

(** [s.strip()] *)
Definition strip (s : string) : string := rstrip (lstrip s).

(** [s.rsplit(sep, 1)] for a one-character separator: when [sep] occurs
    in [s], the text before its last occurrence and the text after it. *)
Fixpoint rsplit_last (sep : ascii) (s : string) : option (string * string) :=
  match s with
  | EmptyString => None
  | String c s' =>
      match rsplit_last sep s' with
      | Some (a, b) => Some (String c a, b)
      | None => if Ascii.eqb c sep then Some (EmptyString, s') else None
      end
  end.

Definition rsplit1 (s : string) (sep : ascii) : list string :=
  match rsplit_last sep s with
  | Some (a, b) => [a; b]
  | None => [s]
  end.

(** [sep.join(l)] *)
Definition join (sep : string) (l : list string) : string := String.concat sep l.

(** [s * n]: a count below one gives the empty string. *)
Fixpoint repeat_nat (s : string) (n : nat) : string :=
  match n with
  | O => EmptyString
  | S n' => s ++ repeat_nat s n'
  end.

Definition mul (s : string) (n : Z) : string := repeat_nat s (Z.to_nat n).

(** Decimal and hexadecimal digits of a non-negative integer. *)
Definition dec_digits (n : N) : string :=
  DecimalString.NilEmpty.string_of_uint (N.to_uint n).
Definition hex_digits (n : N) : string :=
  HexadecimalString.NilEmpty.string_of_uint (N.to_hex_uint n).

(** ['%d' % n] for [n >= 0] *)
Definition fmt_d (n : N) : string := dec_digits n.

(** ['%-3d' % n]: left-justified in a field of width 3. *)
Definition fmt_d_left3 (n : N) : string :=
  let d := dec_digits n in
  d ++ repeat_nat " " (3 - String.length d).

(** ['%016x' % n]: zero-padded on the left to width 16. *)
Definition fmt_016x (n : N) : string :=
  let d := hex_digits n in
  repeat_nat "0" (16 - String.length d) ++ d.

(** [hex(n)] *)
Definition hex (n : Z) : string :=
  if n <? 0 then "-0x" ++ hex_digits (Z.to_N (- n))
  else "0x" ++ hex_digits (Z.to_N n).

(** [int(s)] in base 10.  White space is dropped at both ends, one sign is
    allowed, and single underscores may separate digits.  The white space
    of [int] is not that of [str.strip]: the separators of code points 28
    to 31 are characters like any other here, and make the text invalid.
    A text with more digits than the interpreter allows (4300, the default
    of [sys.get_int_max_str_digits]) is refused like an invalid one, with
    [ValueError]. *)
Definition int_isspace (c : ascii) : bool :=
  let n := N_of_ascii c in
  ((9 <=? n) && (n <=? 13) || (n =? 32) || (n =? 133) || (n =? 160))%N.

Fixpoint int_lstrip (s : string) : string :=
  match s with
  | String c s' => if int_isspace c then int_lstrip s' else s
  | EmptyString => EmptyString
  end.

Fixpoint int_rstrip (s : string) : string :=
  match s with
  | EmptyString => EmptyString
  | String c s' =>
      match int_rstrip s' with
      | EmptyString => if int_isspace c then EmptyString else String c EmptyString
      | t => String c t
      end
  end.

Definition int_max_str_digits : N := 4300.

Definition is_digit (c : ascii) : bool :=
  let n := N_of_ascii c in ((48 <=? n) && (n <=? 57))%N.

Definition digit_val (c : ascii) : N := (N_of_ascii c - 48)%N.

Fixpoint parse_digits (acc : N) (after_digit : bool) (s : string) : option N :=
  match s with
  | EmptyString => if after_digit then Some acc else None
  | String c s' =>
      if is_digit c then parse_digits (10 * acc + digit_val c)%N true s'
      else if Ascii.eqb c "_" && after_digit then parse_digits acc false s'
      else None
  end.

(** The digits of a text, underscores left out. *)
Fixpoint count_digits (s : string) : N :=
  match s with
  | EmptyString => 0%N
  | String c s' => ((if is_digit c then 1 else 0) + count_digits s')%N
  end.

Definition int (s : string) : result Z :=
  let t := int_rstrip (int_lstrip s) in
  let '(neg, body) :=
    match t with
    | String "+" r => (false, r)
    | String "-" r => (true, r)
    | _ => (false, t)
    end in
  match parse_digits 0%N false body with
  | Some n =>
      if (int_max_str_digits <? count_digits body)%N then Raise ValueError
      else Ok (if neg : bool then - Z.of_N n else Z.of_N n)
  | None => Raise ValueError
  end.

(** [int(b)] on a boolean *)
Definition int_of_bool (b : bool) : Z := if b then 1 else 0.

End Py.

(** ** Escape sequences *)

Definition ESC : ascii := "027"%char.
Definition esc (s : string) : string := String ESC s.

(** ** The host: what GDB supplies

    [FrameDecorator] and the [gdb] module are not part of the script; the
    values their calls return are the fields below. *)

(** A [gdb.Symbol] of a block, with the text [str] gives for the symbol and
    for its value in the frame. *)
Record Symbol : Type := {
  sym_str : string;
  is_argument : bool;
  value_str : string
}.

(** A [gdb.Block]: its [function], the symbols iterating over it yields, and
    its [superblock]. *)
#[warnings="-register-all"]
Inductive Block : Type :=
| mkBlock (function : option string) (symbols : list Symbol)
          (superblock : option Block).

Definition block_symbols (b : Block) : list Symbol :=
  match b with mkBlock _ syms _ => syms end.

(** What [FrameDecorator.function] returns: the name of the function, or
    the program counter when no name is known. *)
Inductive FunctionRef : Type :=
| Symbolic (name : string)
| AddressOnly (pc : N).

(** What [gdb.Frame.block] does: it returns the block of the frame, or
    raises [RuntimeError] when it finds none. *)
Inductive BlockLookup : Type :=
| BlockFound (b : Block)
| BlockNotFound.

(** One frame as the decorator sees it: the results of
    [FrameDecorator.address], [.function], [.filename], [.line] and of
    [gdb.Frame.block]. *)
Record RawFrame : Type := {
  frame_address : N;
  frame_function : FunctionRef;
  frame_block : BlockLookup;
  frame_filename : option string;
  frame_line : option N
}.

(** The debugger session: [gdb.parameter('print address')] and
    [gdb.execute(command, False, True)], the text a command prints.  (GDB
    runs the script with the module [gdb] already imported, which is what
    binds the name [gdb] in [function].) *)
Record Host : Type := {
  print_address : bool;
  execute : string -> string
}.

Definition SCREEN_WIDTH : Z := 160.

(** ** FrameColorizer *)

Record FrameColorizer : Type := {
  _depth : nat;
  frame : RawFrame
}.

Module Colorizer.

Section Methods.
Variable host : Host.
Variable self : FrameColorizer.

Definition address : string :=
  esc "[1;30m0x" ++ Py.fmt_016x (frame_address (frame self)) ++ esc "[0m".

Definition depth : string :=
  esc "[1;37m#" ++ Py.fmt_d_left3 (N.of_nat (_depth self)) ++ esc "[0m".

(** ['%s' % filename] prints an absent file name as [None]. *)
Definition filename : string :=
  let filename := match frame_filename (frame self) with
                  | Some f => f
                  | None => "None"
                  end in
  esc "[0;36m" ++ filename ++ esc "[0m".

(** The ascent to the nearest block that has a function. *)
Fixpoint function_block (block : Block) : option Block :=
  match block with
  | mkBlock (Some _) _ _ => Some block
  | mkBlock None _ (Some superblock) => function_block superblock
  | mkBlock None _ None => None
  end.

(** One entry of the argument list. *)
Definition arg_entry (sym : Symbol) : string :=
  if String.eqb (value_str sym) "" then sym_str sym
  else sym_str sym ++ "=" ++ value_str sym.

(** [self.frame.block()] *)
Definition block_call : result Block :=
  match frame_block (frame self) with
  | BlockFound b => Ok b
  | BlockNotFound => Raise RuntimeError
  end.

Definition frame_args : result string :=
  block <- match block_call with
           | Ok b => Ok (Some b)
           | Raise RuntimeError => Ok None
           | Raise e => Raise e
           | OutOfFuel => OutOfFuel
           end ;;
  match match block with
        | Some b => function_block b
        | None => None
        end with
  | None => Ok ""
  | Some block =>
      let args := map arg_entry (List.filter is_argument (block_symbols block)) in
      Ok (Py.join ", " args)
  end.

Definition function : result string :=
  match frame_function (frame self) with
  | AddressOnly func =>
      let symbol := execute host ("info symbol 0x" ++ Py.fmt_016x func) in
      let name := Py.strip (Py.slice_to symbol (Py.find symbol "in section" 0)) in
      let parts := Py.rsplit1 name " " in
      if (List.length parts =? 1)%nat then Ok name
      else
        match Py.int (nth 1 parts "") with
        | Ok n =>
            Ok (esc "[1;34m" ++ nth 0 parts "" ++ " " ++ Py.hex n ++ esc "[0m")
        | Raise ValueError => Ok name
        | Raise e => Raise e
        | OutOfFuel => OutOfFuel
        end
  | Symbolic func => Ok (esc "[1;34m" ++ func ++ esc "[0m")
  end.

Definition get_screen_width : Z := SCREEN_WIDTH.

Definition line : string :=
  match frame_line (frame self) with
  | Some value =>
      if (value =? 0)%N then ""
      else esc "[0;35m:" ++ Py.fmt_d value ++ esc "[0m"
  | None => ""
  end.

End Methods.

(** The [while True] loop of [length].  The name [s] it reads when no [m]
    follows an escape character is bound nowhere in the script, so that
    evaluation raises [NameError]. *)
Fixpoint length_loop (fuel : nat) (colored_string : string)
    (start term_seq_len : Z) : result Z :=
  match fuel with
  | O => OutOfFuel
  | S fuel' =>
      let begin_ := Py.find colored_string (String ESC "") start in
      if begin_ =? -1 then Ok (Py.len colored_string - term_seq_len)
      else
        let end_ := Py.find colored_string "m" begin_ in
        if end_ =? -1 then Raise NameError
        else length_loop fuel' colored_string end_
               (term_seq_len + (end_ - begin_ + 1))
  end.

Definition length (colored_string : string) : result Z :=
  length_loop (S (String.length colored_string)) colored_string 0 0.

(** The locals [part1], [part2], [part3] and [parts] of [__str__]. *)
Definition part1 (host : Host) (self : FrameColorizer) : string :=
  if print_address host
  then depth self ++ "  " ++ address self ++ " in "
  else depth self ++ " ".

Definition part2 (host : Host) (self : FrameColorizer) : result string :=
  function_ <- function host self ;;
  frame_args_ <- frame_args self ;;
  Ok (function_ ++ " " ++ esc "[1;37m(" ++ frame_args_ ++ ")" ++ esc "[0m").

Definition part3 (self : FrameColorizer) : string :=
  filename self ++ line self.

Definition parts (host : Host) (self : FrameColorizer) : result string :=
  part2_ <- part2 host self ;;
  Ok (part1 host self ++ part2_ ++ " at " ++ part3 self).

Definition __str__ (host : Host) (self : FrameColorizer) : result string :=
  let is_print_address := print_address host in
  part2_ <- part2 host self ;;
  let part1_ := part1 host self in
  let part3_ := part3 self in
  let parts := part1_ ++ part2_ ++ " at " ++ part3_ in
  if Py.len parts >? get_screen_width then
    shift_width <- length part1_ ;;
    let shift_width := shift_width - 1 in
    let shift_width := shift_width - 3 * Py.int_of_bool is_print_address in
    let value := part1_ ++ part2_ ++ String "010" "" in
    Ok (value ++ Py.mul " " shift_width ++ " at " ++ part3_)
  else Ok parts.

End Colorizer.

(** ** FilterProxy

    The proxy owns the generator [self.frames], which numbers the frames of
    the host's iterator.  The state below is that generator together with
    the two things it acts on: the host's forward-only iterator and the
    output channel. *)

Record Proxy : Type := {
  iter_rest : list RawFrame;   (* frames the host's iterator has yet to yield *)
  iter_reads : nat;            (* requests made to the host's iterator *)
  enum_next : nat;             (* the counter of [enumerate] *)
  frames_finished : bool;      (* [self.frames] has run to its end *)
  stdout : list string         (* texts written by [print], oldest first *)
}.

Module FilterProxy.

(** [FilterProxy(frames)], with the output written so far. *)
Definition init (frames : list RawFrame) (out : list string) : Proxy :=
  {| iter_rest := frames; iter_reads := 0; enum_next := 0;
     frames_finished := false; stdout := out |}.

(** One [next] on the generator [self.frames]: a finished generator
    answers without resuming its body. *)
Definition frames_next (p : Proxy) : option FrameColorizer * Proxy :=
  if frames_finished p then (None, p)
  else
    match iter_rest p with
    | [] =>
        (None,
         {| iter_rest := []; iter_reads := S (iter_reads p);
            enum_next := enum_next p; frames_finished := true;
            stdout := stdout p |})
    | f :: rest =>
        (Some {| _depth := enum_next p; frame := f |},
         {| iter_rest := rest; iter_reads := S (iter_reads p);
            enum_next := S (enum_next p); frames_finished := false;
            stdout := stdout p |})
    end.

(** [print(text)] *)
Definition print (text : string) (p : Proxy) : Proxy :=
  {| iter_rest := iter_rest p; iter_reads := iter_reads p;
     enum_next := enum_next p; frames_finished := frames_finished p;
     stdout := stdout p ++ [text ++ String "010" ""] |}.

(** Running the generator [output] to its end, as [join] does. *)
Fixpoint collect (fuel : nat) (host : Host) (p : Proxy)
    : result (list string) * Proxy :=
  match fuel with
  | O => (OutOfFuel, p)
  | S fuel' =>
      match frames_next p with
      | (None, p') => (Ok [], p')
      | (Some frame, p') =>
          match Colorizer.__str__ host frame with
          | Ok text =>
              let (rest, p'') := collect fuel' host p' in
              (texts <- rest ;; Ok (text :: texts), p'')
          | Raise e => (Raise e, p')
          | OutOfFuel => (OutOfFuel, p')
          end
      end
  end.

Definition unroll_stack (host : Host) (p : Proxy) : result unit * Proxy :=
  let (output, p') := collect (S (List.length (iter_rest p))) host p in
  match output with
  | Ok texts => (Ok tt, print (Py.join (String "010" "") texts) p')
  | Raise e => (Raise e, p')
  | OutOfFuel => (OutOfFuel, p')
  end.

Definition __next__ (host : Host) (p : Proxy) : result FrameColorizer * Proxy :=
  match unroll_stack host p with
  | (Ok _, p') => (Raise StopIteration, p')
  | (Raise e, p') => (Raise e, p')
  | (OutOfFuel, p') => (OutOfFuel, p')
  end.

(** The host draining the iterator it was handed, up to [fuel] requests:
    the elements it receives before [StopIteration]. *)
Fixpoint drain (fuel : nat) (host : Host) (p : Proxy)
    : result (list FrameColorizer) * Proxy :=
  match fuel with
  | O => (OutOfFuel, p)
  | S fuel' =>
      match __next__ host p with
      | (Ok frame, p') =>
          let (rest, p'') := drain fuel' host p' in
          (frames <- rest ;; Ok (frame :: frames), p'')
      | (Raise StopIteration, p') => (Ok [], p')
      | (Raise e, p') => (Raise e, p')
      | (OutOfFuel, p') => (OutOfFuel, p')
      end
  end.

End FilterProxy.

Module ColourFilter.

(** [ColourFilter.filter(iters)] *)
Definition filter (iters : list RawFrame) (out : list string) : Proxy :=
  FilterProxy.init iters out.

(** The attributes [__init__] sets on the filter. *)
Record t : Type := {
  name : string;
  priority : Z;
  enabled : bool
}.

(** [gdb.frame_filters]: a dictionary from names to filters, its keys in
    the order of their first insertion. *)
Definition registry : Type := list (string * t).

(** [d[key]], or [None] where Python raises [KeyError]. *)
Fixpoint getitem (d : registry) (key : string) : option t :=
  match d with
  | [] => None
  | (k, v) :: d' => if String.eqb k key then Some v else getitem d' key
  end.

(** [d[key] = value]: the value of a key already there is replaced where
    it stands, a new key goes to the end. *)
Fixpoint setitem (d : registry) (key : string) (value : t) : registry :=
  match d with
  | [] => [(key, value)]
  | (k, v) :: d' =>
      if String.eqb k key then (key, value) :: d'
      else (k, v) :: setitem d' key value
  end.

(** [ColourFilter(name, priority, enabled)]: the new filter and the
    dictionary after its registration. *)
Definition __init__ (name_ : string) (priority_ : Z) (enabled_ : bool)
    (frame_filters : registry) : t * registry :=
  let self := {| name := name_; priority := priority_; enabled := enabled_ |} in
  (self, setitem frame_filters (name self) self).

(** The last line of the script: [ColourFilter()], with the defaults of
    [__init__]. *)
Definition load (frame_filters : registry) : registry :=
  snd (__init__ "backtrace-filter" 0 true frame_filters).

End ColourFilter.

(** ** Specification-side definitions *)

(** [contains c s]: the character [c] occurs in [s]. *)
Fixpoint contains (c : ascii) (s : string) : bool :=
  match s with
  | EmptyString => false
  | String d s' => Ascii.eqb d c || contains c s'
  end.

(** The characters of [s] that lie inside an escape sequence, read off one
    character at a time; [in_seq] tells whether the scan starts inside a
    sequence.  [None]: the text ends inside a sequence. *)
Fixpoint hidden (in_seq : bool) (s : string) : option Z :=
  match s with
  | EmptyString => if in_seq then None else Some 0
  | String c s' =>
      if in_seq then option_map Z.succ (hidden (negb (Ascii.eqb c "m")) s')
      else if Ascii.eqb c ESC then option_map Z.succ (hidden true s')
      else hidden false s'
  end.

(** What the scan predicts for the loop of [length] on the text [s], once
    [taken] characters have been counted and [suf] is left to read. *)
Definition scan_outcome (s : string) (taken : Z) (suf : string) : result Z :=
  match hidden false suf with
  | Some h => Ok (Py.len s - (taken + h))
  | None => Raise NameError
  end.

(** A text cut into plain pieces and SGR sequences [ESC [ params m]. *)
Inductive piece : Type :=
| Plain (text : string)
| Sgr (params : string).

Definition piece_text (p : piece) : string :=
  match p with
  | Plain t => t
  | Sgr params => esc "[" ++ params ++ "m"
  end.

Definition piece_ok (p : piece) : Prop :=
  match p with
  | Plain t => contains ESC t = false
  | Sgr params => contains "m" params = false
  end.

Definition piece_visible (p : piece) : Z :=
  match p with
  | Plain t => Py.len t
  | Sgr _ => 0
  end.

Fixpoint pieces_text (l : list piece) : string :=
  match l with
  | [] => ""
  | p :: l' => piece_text p ++ pieces_text l'
  end.

Fixpoint pieces_visible (l : list piece) : Z :=
  match l with
  | [] => 0
  | p :: l' => piece_visible p + pieces_visible l'
  end.

(** Number of line breaks in a text. *)
Fixpoint count_nl (s : string) : nat :=
  match s with
  | EmptyString => O
  | String c s' => ((if Ascii.eqb c "010" then 1 else 0) + count_nl s')%nat
  end.

(** ** Texts, frames and sessions used in the statements *)

(** A session whose [info symbol] answers with a fixed text. *)
Definition host_answering (show_address : bool) (text : string) : Host :=
  {| print_address := show_address; execute := fun _ => text |}.

(** A frame known by its address only. *)
Definition address_frame (pc : N) : FrameColorizer :=
  {| _depth := 0;
     frame := {| frame_address := pc; frame_function := AddressOnly pc;
                 frame_block := BlockNotFound;
                 frame_filename := None; frame_line := None |} |}.

Definition function_colour (label : string) : string :=
  esc "[1;34m" ++ label ++ esc "[0m".

Definition main_block : Block :=
  mkBlock None []
    (Some (mkBlock (Some "main")
             [ {| sym_str := "argc"; is_argument := true; value_str := "1" |};
               {| sym_str := "tmp"; is_argument := false; value_str := "7" |};
               {| sym_str := "argv"; is_argument := true; value_str := "" |} ]
             None)).

Definition main_frame : RawFrame :=
  {| frame_address := 4198742; frame_function := Symbolic "main";
     frame_block := BlockFound main_block;
     frame_filename := Some "main.c"; frame_line := Some 12%N |}.

(** [part1] as plain text between SGR sequences. *)
Definition part1_pieces (host : Host) (self : FrameColorizer) : list piece :=
  [Sgr "1;37"; Plain ("#" ++ Py.fmt_d_left3 (N.of_nat (_depth self))); Sgr "0"]
  ++ (if print_address host
      then [Plain "  "; Sgr "1;30";
            Plain ("0x" ++ Py.fmt_016x (frame_address (frame self)));
            Sgr "0"; Plain " in "]
      else [Plain " "]).

(** The single-line form of a frame, which [__str__] always builds. *)
Definition single_line (host : Host) (self : FrameColorizer) : string :=
  match Colorizer.parts host self with
  | Ok line => line
  | _ => ""
  end.

(** The two-line form: the prefix, function and arguments, a line break,
    [shift] spaces, then [" at "] and the file name and line. *)
Definition two_lines (part1_ part2_ part3_ : string) (shift : Z) : string :=
  part1_ ++ part2_ ++ String "010" ""
  ++ Py.repeat_nat " " (Z.to_nat shift) ++ " at " ++ part3_.

(** A frame of a function with a long name, as templates give. *)
Definition template_frame : RawFrame :=
  {| frame_address := 4198742;
     frame_function :=
       Symbolic "std::vector<std::pair<std::string, std::string>, std::allocator<std::pair<std::string, std::string> > >::push_back";
     frame_block := BlockNotFound;
     frame_filename := Some "stl_vector.h"; frame_line := Some 1187%N |}.

(** The same function called with a structure that GDB prints on several
    lines. *)
Definition pretty_block : Block :=
  mkBlock (Some "push_back")
    [ {| sym_str := "this"; is_argument := true; value_str := "0x7ffc3a2b1c40" |};
      {| sym_str := "__x"; is_argument := true;
         value_str := "{" ++ String "010" "  first = 12345," ++
                      String "010" "  second = 1234567" ++ String "010" "}" |} ]
    None.

Definition pretty_frame : RawFrame :=
  {| frame_address := 4198742;
     frame_function := frame_function template_frame;
     frame_block := BlockFound pretty_block;
     frame_filename := Some "/usr/include/c++/13/bits/stl_vector.h";
     frame_line := Some 1187%N |}.

Definition wide_frame : RawFrame :=
  {| frame_address := 4198742;
     frame_function := frame_function template_frame;
     frame_block := BlockNotFound;
     frame_filename := Some "/usr/include/c++/13/bits/stl_vector.h";
     frame_line := Some 1187%N |}.

(** The text [__str__] returns for a frame. *)
Definition str_text (host : Host) (self : FrameColorizer) : string :=
  match Colorizer.__str__ host self with
  | Ok text => text
  | _ => ""
  end.

(** The frames of a sequence with their depths, from [ix] on. *)
Fixpoint numbered (ix : nat) (frames : list RawFrame) : list FrameColorizer :=
  match frames with
  | [] => []
  | f :: frames' => {| _depth := ix; frame := f |} :: numbered (S ix) frames'
  end.

(** The whole rendered backtrace: one text per frame, joined by line
    breaks. *)
Definition backtrace (host : Host) (frames : list RawFrame) : string :=
  Py.join (String "010" "") (map (str_text host) (numbered 0 frames)).

(** The proxy after [n] requests. *)
Definition after_calls (host : Host) (n : nat) (p : Proxy) : Proxy :=
  Nat.iter n (fun q => snd (FilterProxy.__next__ host q)) p.

(** [all_chars f s]: every character of [s] passes the test [f]. *)
Fixpoint all_chars (f : ascii -> bool) (s : string) : bool :=
  match s with
  | EmptyString => true
  | String c s' => f c && all_chars f s'
  end.

(** The characters an SGR sequence takes: the escape character, the
    bracket, the parameters and the final letter. *)
Definition piece_hidden (p : piece) : Z :=
  match p with
  | Plain _ => 0
  | Sgr params => 3 + Py.len params
  end.

Fixpoint pieces_hidden (l : list piece) : Z :=
  match l with
  | [] => 0
  | p :: l' => piece_hidden p + pieces_hidden l'
  end.

(** The file name as [filename] prints it, and whether [line] prints a
    line number. *)
Definition filename_text (self : FrameColorizer) : string :=
  match frame_filename (frame self) with
  | Some f => f
  | None => "None"
  end.

Definition has_line (self : FrameColorizer) : bool :=
  match frame_line (frame self) with
  | Some value => negb (value =? 0)%N
  | None => false
  end.

(** The single line of a frame with a symbolic function, as plain text
    between SGR sequences. *)
Definition line_pieces (host : Host) (self : FrameColorizer)
    (name args : string) : list piece :=
  (part1_pieces host self
   ++ [Sgr "1;34"; Plain name; Sgr "0"; Plain " ";
       Sgr "1;37"; Plain ("(" ++ args ++ ")"); Sgr "0"; Plain " at ";
       Sgr "0;36"; Plain (filename_text self); Sgr "0"]
   ++ match frame_line (frame self) with
      | Some value =>
          if (value =? 0)%N then []
          else [Sgr "0;35"; Plain (":" ++ Py.fmt_d value); Sgr "0"]
      | None => []
      end)%list.

(** The characters that the SGR sequences add to the single line of a
    frame with a symbolic function. *)
Definition colour_overhead (host : Host) (self : FrameColorizer) : Z :=
  44 + 11 * Py.int_of_bool (print_address host)
  + 11 * Py.int_of_bool (has_line self).

(** A block and the blocks around it, innermost first. *)
Definition block_function (b : Block) : option string :=
  match b with mkBlock f _ _ => f end.

Fixpoint chain (b : Block) : list Block :=
  b :: match b with
       | mkBlock _ _ (Some superblock) => chain superblock
       | mkBlock _ _ None => []
       end.

(** The block [block] inside function-less blocks, one per list of symbols
    of [outer], the first being the innermost. *)
Fixpoint nest (outer : list (list Symbol)) (block : Block) : Block :=
  match outer with
  | [] => block
  | syms :: outer' => mkBlock None syms (Some (nest outer' block))
  end.

(** The characters a text that [int] accepts is made of: digits,
    underscores, signs and the white space of [int]. *)
Definition int_char (c : ascii) : bool :=
  Py.is_digit c || Ascii.eqb c "_" || Ascii.eqb c "+" || Ascii.eqb c "-"
  || Py.int_isspace c.

(** A frame like [self], with another block. *)
Definition with_block (self : FrameColorizer) (b : Block) : FrameColorizer :=
  {| _depth := _depth self;
     frame := {| frame_address := frame_address (frame self);
                 frame_function := frame_function (frame self);
                 frame_block := BlockFound b;
                 frame_filename := frame_filename (frame self);
                 frame_line := frame_line (frame self) |} |}.

(** * Lemmas *)

(** ** Strings *)

Lemma length_append (a b : string) :
  String.length (a ++ b) = (String.length a + String.length b)%nat.
Proof. induction a as [|c a IH]; simpl; [reflexivity | now rewrite IH]. Qed.

Lemma len_app (a b : string) : Py.len (a ++ b) = Py.len a + Py.len b.
Proof. unfold Py.len. rewrite length_append. lia. Qed.

Lemma len_cons (c : ascii) (s : string) : Py.len (String c s) = 1 + Py.len s.
Proof. unfold Py.len. simpl String.length. lia. Qed.

Lemma len_nonneg (s : string) : 0 <= Py.len s.
Proof. unfold Py.len. lia. Qed.

Lemma append_assoc (a b c : string) : (a ++ b) ++ c = a ++ (b ++ c).
Proof. induction a as [|x a IH]; simpl; [reflexivity | now rewrite IH]. Qed.

Lemma append_nil_r (a : string) : a ++ "" = a.
Proof. induction a as [|x a IH]; simpl; [reflexivity | now rewrite IH]. Qed.

Lemma drop_app (a b : string) : Py.drop (String.length a) (a ++ b) = b.
Proof. induction a as [|x a IH]; simpl; [now destruct b | exact IH]. Qed.

Lemma contains_app (c : ascii) (a b : string) :
  contains c (a ++ b) = contains c a || contains c b.
Proof.
  induction a as [|x a IH]; simpl; [reflexivity|].
  rewrite IH. now rewrite orb_assoc.
Qed.

Lemma count_nl_app (a b : string) :
  count_nl (a ++ b) = (count_nl a + count_nl b)%nat.
Proof. induction a as [|x a IH]; simpl; [reflexivity | rewrite IH; lia]. Qed.

Lemma count_nl_spaces (n : nat) : count_nl (Py.repeat_nat " " n) = O.
Proof. induction n as [|n IH]; simpl; [reflexivity | exact IH]. Qed.

(** ** [find] *)

Lemma prefix_char (c d : ascii) (s : string) :
  prefix (String c "") (String d s) = Ascii.eqb d c.
Proof.
  simpl. destruct (ascii_dec c d) as [->|Hne].
  - rewrite Ascii.eqb_refl. now destruct s.
  - symmetry. apply Ascii.eqb_neq. congruence.
Qed.

(** Searching from the end of [pre] is searching the rest. *)
Lemma find_at_split (pre suf sub : string) :
  Py.find (pre ++ suf) sub (Py.len pre) = Py.find_from sub suf (Py.len pre).
Proof.
  unfold Py.find.
  pose proof (len_nonneg pre) as Hp. pose proof (len_nonneg suf) as Hs.
  destruct (Z.ltb_spec (Py.len pre) 0) as [Hlt|_]; [lia|].
  rewrite len_app.
  destruct (Z.ltb_spec (Py.len pre + Py.len suf) (Py.len pre)) as [Hlt|_]; [lia|].
  unfold Py.len at 1. rewrite Nat2Z.id, drop_app. reflexivity.
Qed.

(** What the search for one character finds. *)
Inductive char_search (c : ascii) (s : string) (pos : Z) : Z -> Prop :=
| search_miss : contains c s = false -> char_search c s pos (-1)
| search_hit (a b : string) :
    s = a ++ String c b -> contains c a = false ->
    char_search c s pos (pos + Py.len a).

Lemma find_from_char (c : ascii) (s : string) (pos : Z) :
  char_search c s pos (Py.find_from (String c "") s pos).
Proof.
  revert pos. induction s as [|d s IH]; intros pos.
  - simpl. now apply search_miss.
  - cbn [Py.find_from]. rewrite prefix_char.
    destruct (Ascii.eqb d c) eqn:E.
    + apply Ascii.eqb_eq in E. subst d.
      replace pos with (pos + Py.len "") at 2 by (unfold Py.len; simpl; lia).
      now apply (search_hit c _ pos "" s).
    + destruct (IH (pos + 1)) as [Hmiss | a b Hs Ha].
      * apply search_miss. simpl. now rewrite E.
      * replace (pos + 1 + Py.len a) with (pos + Py.len (String d a))
          by (rewrite len_cons; lia).
        apply (search_hit c _ pos (String d a) b).
        -- simpl. now rewrite Hs.
        -- simpl. now rewrite E.
Qed.

(** ** [hidden] *)

Lemma hidden_plain (a s : string) :
  contains ESC a = false -> hidden false (a ++ s) = hidden false s.
Proof.
  induction a as [|c a IH]; simpl; [reflexivity|].
  intros H. apply orb_false_iff in H as [Hc Ha].
  rewrite Hc. now apply IH.
Qed.

Lemma hidden_open (b : string) :
  contains "m" b = false -> hidden true b = None.
Proof.
  induction b as [|c b IH]; simpl; [reflexivity|].
  intros H. apply orb_false_iff in H as [Hc Hb].
  rewrite Hc. simpl. now rewrite IH.
Qed.

Lemma hidden_closed (c d : string) :
  contains "m" c = false ->
  hidden true (c ++ String "m" d)
  = option_map (fun h => Py.len c + 1 + h) (hidden false d).
Proof.
  induction c as [|x c IH]; intros H.
  - cbn [append hidden]. change (Ascii.eqb "m" "m") with true. cbn [negb].
    destruct (hidden false d); cbn [option_map];
      [f_equal; change (Py.len "") with 0; lia | reflexivity].
  - simpl in H. apply orb_false_iff in H as [Hx Hc].
    cbn [append hidden]. rewrite Hx. cbn [negb]. rewrite (IH Hc).
    destruct (hidden false d); cbn [option_map];
      [f_equal; rewrite len_cons; lia | reflexivity].
Qed.

Lemma hidden_nonneg (st : bool) (s : string) (h : Z) :
  hidden st s = Some h -> 0 <= h.
Proof.
  revert st h. induction s as [|c s IH]; intros st h.
  - destruct st; cbn [hidden]; [discriminate | intros [= <-]; lia].
  - cbn [hidden]. destruct st.
    + destruct (hidden (negb (Ascii.eqb c "m")) s) eqn:E; cbn [option_map]; [|discriminate].
      intros [= <-]. apply IH in E. lia.
    + destruct (Ascii.eqb c ESC).
      * destruct (hidden true s) eqn:E; cbn [option_map]; [|discriminate].
        intros [= <-]. apply IH in E. lia.
      * apply IH.
Qed.

(** A text whose scan ends outside a sequence can be followed by any
    other: the counts add up. *)
Lemma hidden_app (st : bool) (a b : string) (h : Z) :
  hidden st a = Some h ->
  hidden st (a ++ b) = option_map (Z.add h) (hidden false b).
Proof.
  revert st h. induction a as [|c a IH]; intros st h.
  - destruct st; cbn [hidden append]; [discriminate | intros [= <-]].
    destruct (hidden false b); cbn [option_map]; [f_equal; lia | reflexivity].
  - cbn [append hidden]. destruct st.
    + destruct (hidden (negb (Ascii.eqb c "m")) a) eqn:E; cbn [option_map]; [|discriminate].
      intros [= <-]. rewrite (IH _ _ E).
      destruct (hidden false b); cbn [option_map]; [f_equal; lia | reflexivity].
    + destruct (Ascii.eqb c ESC).
      * destruct (hidden true a) eqn:E; cbn [option_map]; [|discriminate].
        intros [= <-]. rewrite (IH _ _ E).
        destruct (hidden false b); cbn [option_map]; [f_equal; lia | reflexivity].
      * apply IH.
Qed.

(** ** [length]: the loop against the character scan *)

(** The loop entered at the end of [pre], with [term_seq_len] counted so
    far, finishes within one step per remaining character and agrees with
    the scan of the remaining text. *)
Lemma length_loop_spec (fuel : nat) :
  forall (suf pre : string) (term_seq_len : Z),
    (String.length suf < fuel)%nat ->
    Colorizer.length_loop fuel (pre ++ suf) (Py.len pre) term_seq_len
    = scan_outcome (pre ++ suf) term_seq_len suf.
Proof.
  induction fuel as [|fuel IH]; intros suf pre t Hfuel; [lia|].
  cbn [Colorizer.length_loop]. rewrite find_at_split.
  destruct (find_from_char ESC suf (Py.len pre)) as [Hmiss | a b Hsuf Ha].
  - (* no escape character is left *)
    change (-1 =? -1) with true. cbv iota.
    unfold scan_outcome.
    rewrite <- (append_nil_r suf) at 2. rewrite (hidden_plain _ _ Hmiss).
    cbn [hidden]. f_equal. lia.
  - pose proof (len_nonneg pre) as Hpre. pose proof (len_nonneg a) as Hlen_a.
    destruct (Z.eqb_spec (Py.len pre + Py.len a) (-1)) as [Hbad|_]; [lia|].
    subst suf. rewrite <- append_assoc, <- len_app, find_at_split.
    cbn [Py.find_from]. rewrite prefix_char.
    change (Ascii.eqb ESC "m") with false. cbv iota.
    unfold scan_outcome at 1. rewrite (hidden_plain _ _ Ha).
    cbn [hidden]. rewrite Ascii.eqb_refl.
    destruct (find_from_char "m" b (Py.len (pre ++ a) + 1)) as [Hopen | c d Hb Hc].
    + (* the sequence is never closed *)
      change (-1 =? -1) with true. cbv iota.
      now rewrite (hidden_open _ Hopen).
    + pose proof (len_nonneg (pre ++ a)) as Hpa. pose proof (len_nonneg c) as Hlen_c.
      destruct (Z.eqb_spec (Py.len (pre ++ a) + 1 + Py.len c) (-1)) as [Hbad|_]; [lia|].
      subst b. rewrite (hidden_closed _ _ Hc).
      replace ((pre ++ a) ++ String ESC (c ++ String "m" d))
        with ((pre ++ a ++ String ESC c) ++ String "m" d)
        by (rewrite !append_assoc; cbn [append]; now rewrite ?append_assoc).
      replace (Py.len (pre ++ a) + 1 + Py.len c)
        with (Py.len (pre ++ a ++ String ESC c))
        by (rewrite !len_app, len_cons; lia).
      rewrite IH.
      * unfold scan_outcome. cbn [hidden].
        change (Ascii.eqb "m" ESC) with false. cbv iota.
        destruct (hidden false d) as [h|]; cbn [option_map]; [|reflexivity].
        f_equal. rewrite !len_app, len_cons. lia.
      * rewrite !length_append in Hfuel. cbn [String.length] in *.
        rewrite length_append in Hfuel. cbn [String.length] in Hfuel. lia.
Qed.

Lemma length_spec (s : string) :
  Colorizer.length s
  = match hidden false s with
    | Some h => Ok (Py.len s - h)
    | None => Raise NameError
    end.
Proof.
  unfold Colorizer.length.
  change s with ("" ++ s) at 2. change 0 with (Py.len "") at 1.
  rewrite length_loop_spec by lia.
  unfold scan_outcome. cbn [append]. now destruct (hidden false s).
Qed.

(** More fuel than one step per character changes nothing. *)
Lemma length_loop_fuel (s : string) (fuel : nat) :
  (String.length s < fuel)%nat ->
  Colorizer.length_loop fuel s 0 0 = Colorizer.length s.
Proof.
  intros H. unfold Colorizer.length.
  change s with ("" ++ s) at 1 3. change 0 with (Py.len "") at 1 3.
  rewrite !length_loop_spec by (cbn [append]; lia). reflexivity.
Qed.

Lemma length_le_len (s : string) (v : Z) :
  Colorizer.length s = Ok v -> 0 <= v <= Py.len s.
Proof.
  rewrite length_spec. destruct (hidden false s) as [h|] eqn:E; [|discriminate].
  intros [= <-]. pose proof (hidden_nonneg _ _ _ E).
  split; [|lia].
  (* the scan never counts more characters than there are *)
  assert (Hle : forall st t k, hidden st t = Some k -> k <= Py.len t).
  { clear. intros st t. revert st.
    induction t as [|c t IH]; intros st k.
    - destruct st; cbn [hidden]; [discriminate | intros [= <-]; unfold Py.len; simpl; lia].
    - cbn [hidden]. rewrite len_cons. destruct st.
      + destruct (hidden (negb (Ascii.eqb c "m")) t) eqn:E; cbn [option_map]; [|discriminate].
        intros [= <-]. apply IH in E. lia.
      + destruct (Ascii.eqb c ESC).
        * destruct (hidden true t) eqn:E; cbn [option_map]; [|discriminate].
          intros [= <-]. apply IH in E. lia.
        * intros E. apply IH in E. lia. }
  apply Hle in E. lia.
Qed.

Lemma hidden_no_escape (s : string) :
  contains ESC s = false -> hidden false s = Some 0.
Proof.
  intros H. rewrite <- (append_nil_r s). now rewrite (hidden_plain _ _ H).
Qed.

Lemma hidden_unterminated (pre rest : string) (st : bool) :
  contains "m" rest = false -> hidden st (pre ++ String ESC rest) = None.
Proof.
  intros H. revert st. induction pre as [|c pre IH]; intros st.
  - cbn [append hidden]. change (Ascii.eqb ESC "m") with false.
    rewrite Ascii.eqb_refl. cbn [negb]. rewrite (hidden_open _ H).
    now destruct st.
  - cbn [append hidden]. destruct st.
    + now rewrite IH.
    + destruct (Ascii.eqb c ESC); now rewrite IH.
Qed.

Lemma hidden_pieces (l : list piece) :
  Forall piece_ok l ->
  hidden false (pieces_text l)
  = Some (Py.len (pieces_text l) - pieces_visible l).
Proof.
  induction 1 as [|p l Hp _ IH]; cbn [pieces_text pieces_visible].
  - reflexivity.
  - destruct p as [t|params]; cbn [piece_text piece_visible piece_ok] in *.
    + rewrite (hidden_plain _ _ Hp), IH, len_app. f_equal. lia.
    + unfold esc. cbn [append]. rewrite append_assoc. cbn [append hidden].
      rewrite Ascii.eqb_refl.
      change (String "[" (params ++ String "m" (pieces_text l)))
        with (String "[" params ++ String "m" (pieces_text l)).
      rewrite hidden_closed by (cbn [contains]; exact Hp).
      rewrite IH. cbn [option_map]. f_equal.
      rewrite !len_cons, !len_app, !len_cons. lia.
Qed.

(** * The claims *)

(** ** VisibleLength *)

(** C7: for every string [s] without an escape character, [length s] is the
    length of [s]; and for every string made of well-formed SGR sequences
    (an escape character, ["["], parameters without ["m"], then ["m"])
    around plain text of total length [L], [length] returns [L]. *)
Theorem length_counts_visible :
  (forall s : string,
      contains ESC s = false -> Colorizer.length s = Ok (Py.len s)) /\
  (forall l : list piece,
      Forall piece_ok l ->
      Colorizer.length (pieces_text l) = Ok (pieces_visible l)).
Proof.
  split.
  - intros s H. rewrite length_spec, (hidden_no_escape _ H). f_equal. lia.
  - intros l H. rewrite length_spec, (hidden_pieces _ H). f_equal. lia.
Qed.

Lemma length_counts_visible_witness :
  (contains ESC "main (argc=1)" = false /\
   Colorizer.length "main (argc=1)" = Ok 13) /\
  (Forall piece_ok [Sgr "1;34"; Plain "raise"; Sgr "0"; Plain " at "; Sgr "0;36"; Sgr "0"] /\
   Colorizer.length
     (pieces_text [Sgr "1;34"; Plain "raise"; Sgr "0"; Plain " at "; Sgr "0;36"; Sgr "0"])
   = Ok 9).
Proof.
  destruct length_counts_visible as [Hplain Hpieces].
  split; split.
  - reflexivity.
  - apply (Hplain "main (argc=1)"). reflexivity.
  - repeat constructor.
  - apply (Hpieces [Sgr "1;34"; Plain "raise"; Sgr "0"; Plain " at "; Sgr "0;36"; Sgr "0"]).
    repeat constructor.
Defined.

(** C2: on every string in which an escape character is followed by no
    ["m"], [length] does not return a number: the guard for the missing
    terminator reads the unbound name [s], and the call raises
    [NameError]. *)
Theorem length_unterminated_raises (pre rest : string) :
  contains "m" rest = false ->
  Colorizer.length (pre ++ String ESC rest) = Raise NameError.
Proof.
  intros H. rewrite length_spec. now rewrite (hidden_unterminated _ _ _ H).
Qed.

Lemma length_unterminated_raises_witness :
  contains "m" "[1;3" = false /\
  Colorizer.length (String ESC "[1;3") = Raise NameError.
Proof.
  split; [reflexivity|].
  apply (length_unterminated_raises "" "[1;3"). reflexivity.
Defined.

(** ** SymbolResolver *)

Lemma int_outcome (s : string) :
  (exists n, Py.int s = Ok n) \/ Py.int s = Raise ValueError.
Proof.
  unfold Py.int.
  destruct (match Py.int_rstrip (Py.int_lstrip s) with
            | String "+" r => (false, r)
            | String "-" r => (true, r)
            | _ => (false, Py.int_rstrip (Py.int_lstrip s))
            end) as [neg body].
  destruct (Py.parse_digits 0 false body); [|now right].
  destruct (Py.int_max_str_digits <? Py.count_digits body)%N;
    [now right | left; eauto].
Qed.

Lemma function_returns (host : Host) (self : FrameColorizer) :
  exists label, Colorizer.function host self = Ok label.
Proof.
  unfold Colorizer.function.
  destruct (frame_function (frame self)) as [name|pc]; [eauto|].
  cbv zeta.
  destruct (List.length _ =? 1)%nat; [eauto|].
  match goal with
  | |- context [Py.int ?t] => destruct (int_outcome t) as [[n ->] | ->]
  end; eauto.
Qed.

Lemma rsplit_last_none (sep : ascii) (s : string) :
  contains sep s = false -> Py.rsplit_last sep s = None.
Proof.
  induction s as [|c s IH]; cbn [contains Py.rsplit_last]; [reflexivity|].
  intros H. apply orb_false_iff in H as [Hc Hs].
  now rewrite (IH Hs), Hc.
Qed.

(** C3: when the answer to [info symbol] for the frame's address is
    ["raise + 272 in section .text of /usr/lib/libc.so.6"], [function]
    returns the text before the last space of ["raise + 272"], one space and
    the offset in hexadecimal -- the label ["raise + 0x110"] -- inside the
    function-name colour sequence. *)
Theorem function_raise_label (host : Host) (self : FrameColorizer) (pc : N) :
  frame_function (frame self) = AddressOnly pc ->
  execute host ("info symbol 0x" ++ Py.fmt_016x pc)
  = "raise + 272 in section .text of /usr/lib/libc.so.6" ->
  Colorizer.function host self = Ok (function_colour "raise + 0x110").
Proof.
  intros Hfun Hexec. unfold Colorizer.function. rewrite Hfun, Hexec.
  reflexivity.
Qed.

Lemma function_raise_label_witness :
  Colorizer.function
    (host_answering true "raise + 272 in section .text of /usr/lib/libc.so.6")
    (address_frame 140737351875088)
  = Ok (function_colour "raise + 0x110").
Proof.
  apply (function_raise_label _ _ 140737351875088); reflexivity.
Defined.

(** C3, as the specification words it, fails: the label is not
    ["raise 0x110"]. *)
Lemma function_raise_label_counterexample :
  Colorizer.function
    (host_answering true "raise + 272 in section .text of /usr/lib/libc.so.6")
    (address_frame 140737351875088)
  <> Ok (function_colour "raise 0x110").
Proof. vm_compute. discriminate. Qed.

(** *** Texts that [int] refuses *)

Lemma all_chars_some_fail (f g : ascii -> bool) (s : string) :
  (forall c, g c = true -> f c = true) ->
  all_chars f s = false -> all_chars g s = false.
Proof.
  intros Hgf. induction s as [|c s IH]; cbn [all_chars]; [discriminate|].
  intros H. destruct (g c) eqn:Eg; [|reflexivity].
  rewrite (Hgf _ Eg) in H. cbn [andb] in *. now apply IH.
Qed.

Lemma parse_digits_invalid (s : string) :
  forall (acc : N) (after_digit : bool),
    all_chars (fun c => Py.is_digit c || Ascii.eqb c "_") s = false ->
    Py.parse_digits acc after_digit s = None.
Proof.
  induction s as [|c s IH]; intros acc b; cbn [all_chars Py.parse_digits];
    [discriminate|].
  destruct (Py.is_digit c); cbn [orb andb].
  - apply IH.
  - destruct (Ascii.eqb c "_"); cbn [andb]; [|reflexivity].
    intros H. destruct b; [now apply IH | reflexivity].
Qed.

Lemma int_lstrip_keeps (f : ascii -> bool) (s : string) :
  (forall c, Py.int_isspace c = true -> f c = true) ->
  all_chars f s = false -> all_chars f (Py.int_lstrip s) = false.
Proof.
  intros Hspace. induction s as [|c s IH]; cbn [all_chars Py.int_lstrip];
    [discriminate|].
  intros H. destruct (Py.int_isspace c) eqn:Ec; [|exact H].
  rewrite (Hspace _ Ec) in H. now apply IH.
Qed.

Lemma int_rstrip_keeps (f : ascii -> bool) (s : string) :
  (forall c, Py.int_isspace c = true -> f c = true) ->
  all_chars f s = false -> all_chars f (Py.int_rstrip s) = false.
Proof.
  intros Hspace. induction s as [|c s IH]; cbn [all_chars Py.int_rstrip];
    [discriminate|].
  intros H. destruct (f c) eqn:Ef; cbn [andb] in H.
  - specialize (IH H). destruct (Py.int_rstrip s) as [|d t];
      [discriminate | cbn [all_chars] in *; now rewrite Ef].
  - destruct (Py.int_rstrip s) as [|d t].
    + destruct (Py.int_isspace c) eqn:Ec;
        [rewrite (Hspace _ Ec) in Ef; discriminate|].
      cbn [all_chars]. now rewrite Ef.
    + cbn [all_chars]. now rewrite Ef.
Qed.

(** A text with a character that is neither a digit, an underscore, a
    sign nor white space of [int] is refused. *)
Lemma int_refuses (s : string) :
  all_chars int_char s = false -> Py.int s = Raise ValueError.
Proof.
  intros H.
  assert (Hspace : forall c, Py.int_isspace c = true -> int_char c = true)
    by (intros c Hc; unfold int_char; rewrite Hc; now rewrite !orb_true_r).
  assert (Hsub : forall c, Py.is_digit c || Ascii.eqb c "_" = true -> int_char c = true).
  { intros c Hc. unfold int_char. apply orb_true_iff in Hc as [-> | ->];
      cbn [orb]; now rewrite ?orb_true_r. }
  apply (int_lstrip_keeps _ _ Hspace), (int_rstrip_keeps _ _ Hspace) in H.
  unfold Py.int. destruct (Py.int_rstrip (Py.int_lstrip s)) as [|c r];
    [discriminate|].
  destruct c as [[] [] [] [] [] [] [] []];
    cbv beta iota zeta;
    (rewrite parse_digits_invalid;
     [ reflexivity
     | apply (all_chars_some_fail int_char _ _ Hsub);
       first [ exact H | cbn [all_chars] in H; exact H ] ]).
Qed.

(** C4: [function] never raises.  For an address-only frame whose
    [info symbol] answer contains ["in section"], let [name] be the
    stripped text before the first such marker: when [name] has no space,
    or the text after its last space is refused by [int], [function]
    returns [name] itself, with no colour sequence and no offset.  [int]
    refuses every text that holds a character other than digits,
    underscores, signs and its own white space.  So the answer
    ["weird_symbol + notanumber in section .text of lib"] gives
    ["weird_symbol + notanumber"]. *)
Theorem function_fallback :
  (forall host self, exists label, Colorizer.function host self = Ok label) /\
  (forall host self pc symbol name,
      frame_function (frame self) = AddressOnly pc ->
      execute host ("info symbol 0x" ++ Py.fmt_016x pc) = symbol ->
      Py.find symbol "in section" 0 <> -1 ->
      name = Py.strip (Py.slice_to symbol (Py.find symbol "in section" 0)) ->
      (contains " " name = false \/
       exists before tail,
         Py.rsplit_last " " name = Some (before, tail) /\
         Py.int tail = Raise ValueError) ->
      Colorizer.function host self = Ok name) /\
  (forall tail, all_chars int_char tail = false -> Py.int tail = Raise ValueError) /\
  (forall host self pc,
      frame_function (frame self) = AddressOnly pc ->
      execute host ("info symbol 0x" ++ Py.fmt_016x pc)
      = "weird_symbol + notanumber in section .text of lib" ->
      Colorizer.function host self = Ok "weird_symbol + notanumber").
Proof.
  split; [exact function_returns | split; [|split; [exact int_refuses|]]].
  - intros host self pc symbol name Hfun Hexec _ Hname Hcase.
    unfold Colorizer.function. rewrite Hfun, Hexec. cbv zeta. rewrite <- Hname.
    unfold Py.rsplit1.
    destruct Hcase as [Hnone | (before & tail & Hsplit & Hint)].
    + now rewrite (rsplit_last_none _ _ Hnone).
    + rewrite Hsplit. cbn [List.length Nat.eqb nth]. now rewrite Hint.
  - intros host self pc Hfun Hexec.
    unfold Colorizer.function. rewrite Hfun, Hexec. reflexivity.
Qed.

Lemma function_fallback_witness :
  Colorizer.function (host_answering false "main in section .text")
    (address_frame 4198742) = Ok "main" /\
  Colorizer.function
    (host_answering false "No symbol matches 0x401136. in section")
    (address_frame 4198742) = Ok "No symbol matches 0x401136." /\
  Colorizer.function
    (host_answering false ("f " ++ String "028" "12 in section .text"))
    (address_frame 4198742) = Ok ("f " ++ String "028" "12") /\
  Colorizer.function
    (host_answering false "weird_symbol + notanumber in section .text of lib")
    (address_frame 4198742) = Ok "weird_symbol + notanumber".
Proof.
  destruct function_fallback as (_ & Hgeneral & Hrefused & Hweird).
  split; [|split; [|split]].
  - apply (Hgeneral _ _ 4198742%N "main in section .text" "main");
      try reflexivity; [discriminate | now left].
  - apply (Hgeneral _ _ 4198742%N "No symbol matches 0x401136. in section"
             "No symbol matches 0x401136.");
      try reflexivity; [discriminate|].
    right. exists "No symbol matches", "0x401136.". split; [reflexivity|].
    apply Hrefused. reflexivity.
  - apply (Hgeneral _ _ 4198742%N ("f " ++ String "028" "12 in section .text")
             ("f " ++ String "028" "12"));
      try reflexivity; [discriminate|].
    right. exists "f", (String "028" "12"). split; [reflexivity|].
    apply Hrefused. reflexivity.
  - apply (Hweird _ _ 4198742%N); reflexivity.
Defined.

(** C4, as the specification words it, fails where the marker is absent:
    the answer ["??"] loses its last character, and an answer such as
    ["main 16"] followed by a line break is parsed like any other and comes
    back coloured, with an offset. *)
Lemma function_fallback_counterexample :
  Colorizer.function (host_answering false "??") (address_frame 4198742)
  = Ok "?" /\
  Colorizer.function (host_answering false "??") (address_frame 4198742)
  <> Ok "??" /\
  Colorizer.function (host_answering false ("main 16" ++ String "010" ""))
    (address_frame 4198742)
  = Ok (function_colour "main 0x10").
Proof.
  split; [|split].
  - vm_compute. reflexivity.
  - vm_compute. discriminate.
  - vm_compute. reflexivity.
Qed.

(** ** FrameRenderer *)

(** *** The argument list *)

(** C8: when [frame.block()] raises [RuntimeError], [frame_args] catches
    it, goes on as if no block had been found, and returns the empty
    argument list; nothing is raised, and the frame is rendered with empty
    parentheses after its function. *)
Theorem frame_args_lookup_failure (self : FrameColorizer) :
  frame_block (frame self) = BlockNotFound ->
  Colorizer.block_call self = Raise RuntimeError /\
  Colorizer.frame_args self = Ok "" /\
  forall (host : Host) (label : string),
    Colorizer.function host self = Ok label ->
    Colorizer.part2 host self = Ok (label ++ " " ++ esc "[1;37m()" ++ esc "[0m").
Proof.
  intros H.
  assert (Hargs : Colorizer.frame_args self = Ok "").
  { unfold Colorizer.frame_args, Colorizer.block_call. now rewrite H. }
  split; [|split].
  - unfold Colorizer.block_call. now rewrite H.
  - exact Hargs.
  - intros host label Hlabel. unfold Colorizer.part2.
    now rewrite Hlabel, Hargs.
Qed.

Lemma frame_args_lookup_failure_witness :
  Colorizer.block_call (address_frame 4198742) = Raise RuntimeError /\
  Colorizer.frame_args (address_frame 4198742) = Ok "" /\
  forall (host : Host) (label : string),
    Colorizer.function host (address_frame 4198742) = Ok label ->
    Colorizer.part2 host (address_frame 4198742)
    = Ok (label ++ " " ++ esc "[1;37m()" ++ esc "[0m").
Proof. apply (frame_args_lookup_failure (address_frame 4198742)). reflexivity. Defined.

(** C9: an argument whose printed value is not empty is rendered
    [<symbol>=<value>], one whose printed value is empty is rendered as the
    bare [<symbol>]; and the argument list of a frame is made of these
    entries, one per argument symbol of the nearest block that has a
    function, in the order of the block, joined by [", "]. *)
Theorem frame_args_entries :
  (forall sym : Symbol,
      value_str sym <> "" ->
      Colorizer.arg_entry sym = sym_str sym ++ "=" ++ value_str sym) /\
  (forall sym : Symbol,
      value_str sym = "" -> Colorizer.arg_entry sym = sym_str sym) /\
  (forall (self : FrameColorizer) (b block : Block),
      frame_block (frame self) = BlockFound b ->
      Colorizer.function_block b = Some block ->
      Colorizer.frame_args self
      = Ok (Py.join ", "
              (map Colorizer.arg_entry
                 (List.filter is_argument (block_symbols block))))).
Proof.
  split; [|split].
  - intros sym H. unfold Colorizer.arg_entry.
    destruct (String.eqb_spec (value_str sym) ""); [contradiction | reflexivity].
  - intros sym H. unfold Colorizer.arg_entry. now rewrite H.
  - intros self b block Hb Hf.
    unfold Colorizer.frame_args, Colorizer.block_call. rewrite Hb.
    cbn [bind]. now rewrite Hf.
Qed.

Lemma frame_args_entries_witness :
  Colorizer.arg_entry {| sym_str := "argc"; is_argument := true; value_str := "1" |}
  = "argc=1" /\
  Colorizer.arg_entry {| sym_str := "argv"; is_argument := true; value_str := "" |}
  = "argv" /\
  Colorizer.frame_args {| _depth := 0; frame := main_frame |} = Ok "argc=1, argv".
Proof.
  destruct frame_args_entries as (Hvalue & Hbare & Hlist).
  split; [|split].
  - apply (Hvalue {| sym_str := "argc"; is_argument := true; value_str := "1" |}).
    discriminate.
  - apply (Hbare {| sym_str := "argv"; is_argument := true; value_str := "" |}).
    reflexivity.
  - apply (Hlist {| _depth := 0; frame := main_frame |} main_block
             (mkBlock (Some "main")
                [ {| sym_str := "argc"; is_argument := true; value_str := "1" |};
                  {| sym_str := "tmp"; is_argument := false; value_str := "7" |};
                  {| sym_str := "argv"; is_argument := true; value_str := "" |} ]
                None)); reflexivity.
Defined.

(** *** The pieces of the first-line prefix *)

Lemma frame_args_returns (self : FrameColorizer) :
  exists args, Colorizer.frame_args self = Ok args.
Proof.
  unfold Colorizer.frame_args, Colorizer.block_call.
  destruct (frame_block (frame self)) as [b|]; cbn [bind].
  - destruct (Colorizer.function_block b); eauto.
  - eauto.
Qed.

Lemma part2_returns (host : Host) (self : FrameColorizer) :
  exists part2_, Colorizer.part2 host self = Ok part2_.
Proof.
  unfold Colorizer.part2.
  destruct (function_returns host self) as [f ->].
  destruct (frame_args_returns self) as [a ->]. cbn [bind]. eauto.
Qed.

Lemma dec_digits_plain (u : Decimal.uint) :
  contains ESC (DecimalString.NilEmpty.string_of_uint u) = false.
Proof. induction u; cbn; assumption || reflexivity. Qed.

Lemma hex_digits_plain (u : Hexadecimal.uint) :
  contains ESC (HexadecimalString.NilEmpty.string_of_uint u) = false.
Proof. induction u; cbn; assumption || reflexivity. Qed.

Lemma repeat_plain (c : ascii) (n : nat) :
  Ascii.eqb c ESC = false ->
  contains ESC (Py.repeat_nat (String c "") n) = false.
Proof.
  intros H. induction n as [|n IH]; cbn [Py.repeat_nat append contains];
    [reflexivity | now rewrite H, IH].
Qed.

Lemma repeat_length (c : ascii) (n : nat) :
  String.length (Py.repeat_nat (String c "") n) = n.
Proof. induction n as [|n IH]; cbn; [reflexivity | now rewrite IH]. Qed.

Lemma fmt_d_left3_plain (n : N) : contains ESC (Py.fmt_d_left3 n) = false.
Proof.
  unfold Py.fmt_d_left3, Py.dec_digits.
  rewrite contains_app, dec_digits_plain, repeat_plain; reflexivity.
Qed.

Lemma fmt_016x_plain (n : N) : contains ESC (Py.fmt_016x n) = false.
Proof.
  unfold Py.fmt_016x, Py.hex_digits.
  rewrite contains_app, hex_digits_plain, repeat_plain; reflexivity.
Qed.

Lemma fmt_d_left3_width (n : N) : 3 <= Py.len (Py.fmt_d_left3 n).
Proof.
  unfold Py.fmt_d_left3, Py.len. rewrite length_append, repeat_length. lia.
Qed.

Lemma fmt_016x_width (n : N) : 16 <= Py.len (Py.fmt_016x n).
Proof.
  unfold Py.fmt_016x, Py.len. rewrite length_append, repeat_length. lia.
Qed.

Lemma part1_pieces_text (host : Host) (self : FrameColorizer) :
  Colorizer.part1 host self = pieces_text (part1_pieces host self).
Proof.
  unfold Colorizer.part1, part1_pieces, Colorizer.depth, Colorizer.address, esc.
  destruct (print_address host);
    cbn [List.app pieces_text piece_text append esc];
    unfold esc; cbn [append];
    rewrite ?append_assoc; cbn [append]; rewrite ?append_assoc;
    reflexivity.
Qed.

Lemma part1_pieces_ok (host : Host) (self : FrameColorizer) :
  Forall piece_ok (part1_pieces host self).
Proof.
  unfold part1_pieces.
  destruct (print_address host); cbn [List.app];
    repeat (apply Forall_cons; [|]); try apply Forall_nil;
    cbn [piece_ok contains append];
    rewrite ?fmt_d_left3_plain, ?fmt_016x_plain; reflexivity.
Qed.

(** The visible width of the first-line prefix. *)
Lemma part1_length (host : Host) (self : FrameColorizer) :
  Colorizer.length (Colorizer.part1 host self)
  = Ok (pieces_visible (part1_pieces host self)).
Proof.
  rewrite part1_pieces_text, length_spec.
  rewrite (hidden_pieces _ (part1_pieces_ok host self)). f_equal. lia.
Qed.

Lemma part1_shift_nonneg (host : Host) (self : FrameColorizer) :
  0 <= pieces_visible (part1_pieces host self) - 1
       - 3 * Py.int_of_bool (print_address host).
Proof.
  unfold part1_pieces.
  pose proof (fmt_d_left3_width (N.of_nat (_depth self))) as Hd.
  pose proof (fmt_016x_width (frame_address (frame self))) as Ha.
  destruct (print_address host);
    cbn [List.app pieces_visible piece_visible Py.int_of_bool];
    rewrite ?len_app; change (Py.len "#") with 1; change (Py.len " ") with 1;
    change (Py.len "  ") with 2; change (Py.len "0x") with 2;
    change (Py.len " in ") with 4; lia.
Qed.

(** *** One line or two *)

Lemma parts_returns (host : Host) (self : FrameColorizer) :
  Colorizer.parts host self = Ok (single_line host self).
Proof.
  unfold single_line, Colorizer.parts.
  destruct (part2_returns host self) as [p ->]. reflexivity.
Qed.

(** What [__str__] does on either side of its test. *)
Lemma str_cases (host : Host) (self : FrameColorizer) (part2_ : string) :
  Colorizer.part2 host self = Ok part2_ ->
  let part1_ := Colorizer.part1 host self in
  let part3_ := Colorizer.part3 self in
  let line := part1_ ++ part2_ ++ " at " ++ part3_ in
  let shift := pieces_visible (part1_pieces host self) - 1
               - 3 * Py.int_of_bool (print_address host) in
  Colorizer.parts host self = Ok line /\
  (Py.len line <= Colorizer.get_screen_width ->
   Colorizer.__str__ host self = Ok line) /\
  (Colorizer.get_screen_width < Py.len line ->
   Colorizer.__str__ host self = Ok (two_lines part1_ part2_ part3_ shift)).
Proof.
  intros Hp2 part1_ part3_ line shift.
  unfold Colorizer.parts, Colorizer.__str__. rewrite Hp2. cbn [bind].
  fold part1_ part3_ line. rewrite Z.gtb_ltb.
  split; [reflexivity | split]; intros Hlen.
  - destruct (Z.ltb_spec Colorizer.get_screen_width (Py.len line)); [lia | reflexivity].
  - destruct (Z.ltb_spec Colorizer.get_screen_width (Py.len line)); [|lia].
    unfold part1_. rewrite part1_length. cbn [bind]. fold part1_ shift.
    unfold two_lines, Py.mul. now rewrite !append_assoc.
Qed.

Lemma count_nl_two_lines (part1_ part2_ part3_ : string) (shift : Z) :
  count_nl (two_lines part1_ part2_ part3_ shift)
  = S (count_nl (part1_ ++ part2_ ++ " at " ++ part3_)).
Proof.
  unfold two_lines. rewrite !count_nl_app, count_nl_spaces.
  cbn [count_nl Ascii.eqb Bool.eqb]. lia.
Qed.

(** [__str__] always returns a text. *)
Lemma str_returns (host : Host) (self : FrameColorizer) :
  exists text, Colorizer.__str__ host self = Ok text.
Proof.
  destruct (part2_returns host self) as [p Hp].
  destruct (str_cases host self p Hp) as (_ & Hshort & Hlong).
  destruct (Z.le_gt_cases
              (Py.len (Colorizer.part1 host self ++ p ++ " at " ++ Colorizer.part3 self))
              Colorizer.get_screen_width) as [H|H]; eauto.
Qed.

(** C1: [__str__] decides by the length of the assembled single-line
    string with its escape sequences counted, against the fixed width 160:
    when that length does not exceed the width, [__str__] returns the
    single line unchanged, with no line break added. *)
Theorem str_single_line (host : Host) (self : FrameColorizer) (line : string) :
  Colorizer.parts host self = Ok line ->
  Py.len line <= Colorizer.get_screen_width ->
  Colorizer.__str__ host self = Ok line /\
  Colorizer.get_screen_width = 160.
Proof.
  intros Hparts Hlen.
  destruct (part2_returns host self) as [p Hp].
  destruct (str_cases host self p Hp) as (Hline & Hshort & _).
  rewrite Hline in Hparts. injection Hparts as <-.
  split; [now apply Hshort | reflexivity].
Qed.

Lemma str_single_line_witness :
  Colorizer.__str__ (host_answering false "") {| _depth := 3; frame := main_frame |}
  = Ok (single_line (host_answering false "") {| _depth := 3; frame := main_frame |}).
Proof.
  apply (str_single_line (host_answering false "")
           {| _depth := 3; frame := main_frame |}).
  - apply parts_returns.
  - vm_compute. discriminate.
Defined.

(** C1, as the specification words it, fails: the single line of this
    frame shows 143 characters, which fit in the width of 160, and yet
    [__str__] breaks it in two. *)
Lemma str_single_line_counterexample :
  let host := host_answering false "" in
  let self := {| _depth := 0; frame := template_frame |} in
  Colorizer.length (single_line host self) = Ok 143 /\
  143 <= Colorizer.get_screen_width /\
  Colorizer.__str__ host self <> Ok (single_line host self) /\
  (forall text, Colorizer.__str__ host self = Ok text -> count_nl text = 1%nat).
Proof.
  cbv zeta. split; [|split; [|split]].
  - vm_compute. reflexivity.
  - vm_compute. discriminate.
  - vm_compute. discriminate.
  - intros text. vm_compute. intros [= <-]. reflexivity.
Qed.

(** C5: for every frame whose single-line form has a visible length above
    the width, [__str__] returns the prefix, the function and the
    arguments, one line break, a run of spaces whose count is the visible
    length of the prefix minus 1, minus 3 more when addresses are shown,
    then [" at "] and the file name and line.  The result has one line
    break more than the single-line form: exactly one when the texts of the
    frame have none. *)
Theorem str_two_lines (host : Host) (self : FrameColorizer) (line : string) (v : Z) :
  Colorizer.parts host self = Ok line ->
  Colorizer.length line = Ok v ->
  Colorizer.get_screen_width < v ->
  exists (part2_ : string) (prefix_width : Z),
    let part1_ := Colorizer.part1 host self in
    let part3_ := Colorizer.part3 self in
    let shift := prefix_width - 1 - 3 * Py.int_of_bool (print_address host) in
    Colorizer.part2 host self = Ok part2_ /\
    Colorizer.length part1_ = Ok prefix_width /\
    0 <= shift /\
    Colorizer.__str__ host self = Ok (two_lines part1_ part2_ part3_ shift) /\
    count_nl (two_lines part1_ part2_ part3_ shift) = S (count_nl line) /\
    (count_nl line = O ->
     count_nl (two_lines part1_ part2_ part3_ shift) = 1%nat).
Proof.
  intros Hparts Hvis Hwide.
  destruct (part2_returns host self) as [p Hp].
  destruct (str_cases host self p Hp) as (Hline & _ & Hlong).
  rewrite Hline in Hparts. injection Hparts as <-.
  apply length_le_len in Hvis.
  exists p, (pieces_visible (part1_pieces host self)). cbv zeta.
  split; [exact Hp | split; [apply part1_length | split]].
  - apply part1_shift_nonneg.
  - split; [apply Hlong; apply (Z.lt_le_trans _ v); [exact Hwide | apply Hvis] | split].
    + apply count_nl_two_lines.
    + intros Hnone. rewrite count_nl_two_lines. f_equal. exact Hnone.
Qed.

Lemma str_two_lines_witness :
  let host := host_answering true "" in
  let self := {| _depth := 12; frame := wide_frame |} in
  exists (part2_ : string) (prefix_width : Z),
    let part1_ := Colorizer.part1 host self in
    let part3_ := Colorizer.part3 self in
    let shift := prefix_width - 1 - 3 * Py.int_of_bool (print_address host) in
    Colorizer.part2 host self = Ok part2_ /\
    Colorizer.length part1_ = Ok prefix_width /\
    0 <= shift /\
    Colorizer.__str__ host self = Ok (two_lines part1_ part2_ part3_ shift) /\
    count_nl (two_lines part1_ part2_ part3_ shift)
    = S (count_nl (single_line host self)) /\
    (count_nl (single_line host self) = O ->
     count_nl (two_lines part1_ part2_ part3_ shift) = 1%nat).
Proof.
  cbv zeta.
  apply (str_two_lines (host_answering true "")
           {| _depth := 12; frame := wide_frame |}
           (single_line (host_answering true "") {| _depth := 12; frame := wide_frame |})
           191).
  - apply parts_returns.
  - vm_compute. reflexivity.
  - vm_compute. reflexivity.
Defined.

(** C5, as the specification words it, fails: the single line of this
    frame shows more than 160 characters, and the text [__str__] returns
    has four line breaks, three of them from the printed argument. *)
Lemma str_two_lines_counterexample :
  let host := host_answering false "" in
  let self := {| _depth := 0; frame := pretty_frame |} in
  Colorizer.length (single_line host self) = Ok 232 /\
  Colorizer.get_screen_width < 232 /\
  (forall text, Colorizer.__str__ host self = Ok text -> count_nl text = 4%nat) /\
  (forall text, Colorizer.__str__ host self = Ok text -> count_nl text <> 1%nat).
Proof.
  cbv zeta. split; [|split; [|split]].
  - vm_compute. reflexivity.
  - vm_compute. reflexivity.
  - intros text. vm_compute. intros [= <-]. reflexivity.
  - intros text. vm_compute. intros [= <-]. discriminate.
Qed.

(** ** BacktraceEmitter *)

Lemma str_text_ok (host : Host) (self : FrameColorizer) :
  Colorizer.__str__ host self = Ok (str_text host self).
Proof.
  unfold str_text. destruct (str_returns host self) as [t ->]. reflexivity.
Qed.

(** Running a fresh generator to its end reads every frame once, then
    meets the end of the host's iterator. *)
Lemma collect_running (host : Host) (frames : list RawFrame) :
  forall (fuel reads ix : nat) (out : list string),
    (List.length frames < fuel)%nat ->
    FilterProxy.collect fuel host
      {| iter_rest := frames; iter_reads := reads; enum_next := ix;
         frames_finished := false; stdout := out |}
    = (Ok (map (str_text host) (numbered ix frames)),
       {| iter_rest := []; iter_reads := S (List.length frames + reads);
          enum_next := List.length frames + ix;
          frames_finished := true; stdout := out |}).
Proof.
  induction frames as [|f frames IH]; intros fuel reads ix out Hfuel;
    (destruct fuel as [|fuel]; [cbn [List.length] in Hfuel; lia|]).
  - reflexivity.
  - cbn [FilterProxy.collect FilterProxy.frames_next frames_finished iter_rest
           iter_reads enum_next stdout].
    rewrite str_text_ok.
    rewrite IH by (cbn [List.length] in Hfuel; lia).
    cbn [bind numbered map List.length].
    now rewrite !Nat.add_succ_r.
Qed.

(** A finished generator yields nothing and touches nothing. *)
Lemma collect_finished (host : Host) (fuel : nat) (p : Proxy) :
  frames_finished p = true ->
  FilterProxy.collect (S fuel) host p = (Ok [], p).
Proof.
  intros H. cbn [FilterProxy.collect]. unfold FilterProxy.frames_next.
  now rewrite H.
Qed.

Lemma next_first (host : Host) (frames : list RawFrame) (out : list string) :
  FilterProxy.__next__ host (ColourFilter.filter frames out)
  = (Raise StopIteration,
     {| iter_rest := []; iter_reads := S (List.length frames);
        enum_next := List.length frames; frames_finished := true;
        stdout := out ++ [backtrace host frames ++ String "010" ""] |}).
Proof.
  unfold FilterProxy.__next__, FilterProxy.unroll_stack,
    ColourFilter.filter, FilterProxy.init.
  cbn [iter_rest]. rewrite collect_running by lia.
  unfold FilterProxy.print, backtrace. cbn [iter_rest iter_reads enum_next
    frames_finished stdout]. now rewrite !Nat.add_0_r.
Qed.

Lemma next_finished (host : Host) (p : Proxy) :
  frames_finished p = true ->
  FilterProxy.__next__ host p = (Raise StopIteration, FilterProxy.print "" p).
Proof.
  intros H. unfold FilterProxy.__next__, FilterProxy.unroll_stack.
  now rewrite (collect_finished _ _ _ H).
Qed.

Lemma next_stops (host : Host) (p : Proxy) :
  fst (FilterProxy.__next__ host p) = Raise StopIteration.
Proof.
  destruct (frames_finished p) eqn:E.
  - now rewrite (next_finished _ _ E).
  - destruct p as [rest reads ix fin out]. cbn [frames_finished] in E. subst fin.
    unfold FilterProxy.__next__, FilterProxy.unroll_stack.
    cbn [iter_rest]. now rewrite collect_running by lia.
Qed.

(** After the first request the generator is finished, and it stays so. *)
Lemma after_calls_state (host : Host) (frames : list RawFrame) (out : list string)
    (n : nat) :
  after_calls host (S n) (ColourFilter.filter frames out)
  = {| iter_rest := []; iter_reads := S (List.length frames);
       enum_next := List.length frames; frames_finished := true;
       stdout := out ++ [backtrace host frames ++ String "010" ""]
                 ++ repeat (String "010" "") n |}.
Proof.
  induction n as [|n IH].
  - unfold after_calls. cbn [Nat.iter nat_rect]. rewrite next_first.
    cbn [snd repeat]. now rewrite List.app_nil_r.
  - unfold after_calls in *. cbn [Nat.iter nat_rect] in *. rewrite IH.
    rewrite next_finished by reflexivity.
    unfold FilterProxy.print. cbn [snd iter_rest iter_reads enum_next
      frames_finished stdout append].
    f_equal. rewrite <- !List.app_assoc.
    do 2 f_equal. change [String "010" ""] with (repeat (String "010" "") 1).
    rewrite <- repeat_app. f_equal. lia.
Qed.

(** C6: the frames of the host's iterator are read once.  A request made
    to a proxy that has already been drained raises [StopIteration], asks
    the host's iterator for nothing and renders no frame again; what it
    writes is one empty line, the [print] of the empty join.  So after
    [n + 1] requests the host's iterator has been asked [length frames + 1]
    times, and the output holds the backtrace followed by [n] empty
    lines. *)
Theorem proxy_drained_request (host : Host) (frames : list RawFrame)
    (out : list string) :
  let p1 := after_calls host 1 (ColourFilter.filter frames out) in
  FilterProxy.__next__ host p1 = (Raise StopIteration, FilterProxy.print "" p1) /\
  stdout (FilterProxy.print "" p1) = (stdout p1 ++ [String "010" ""])%list /\
  forall n : nat,
    let pn := after_calls host (S n) (ColourFilter.filter frames out) in
    iter_rest pn = [] /\
    iter_reads pn = S (List.length frames) /\
    stdout pn = (out ++ [(backtrace host frames ++ String "010" "")%string]
                 ++ repeat (String "010" "") n)%list.
Proof.
  cbv zeta. split; [|split].
  - apply next_finished. now rewrite after_calls_state.
  - reflexivity.
  - intros n. rewrite after_calls_state. repeat split.
Qed.

(** C6, as the specification words it, fails: the second request on a
    drained proxy adds a text to the output channel. *)
Lemma proxy_drained_request_counterexample :
  let host := host_answering false "" in
  let p0 := ColourFilter.filter [main_frame] [] in
  stdout (after_calls host 1 p0)
  = [str_text host {| _depth := 0; frame := main_frame |} ++ String "010" ""] /\
  stdout (after_calls host 2 p0)
  = [str_text host {| _depth := 0; frame := main_frame |} ++ String "010" "";
     String "010" ""] /\
  stdout (after_calls host 2 p0) <> stdout (after_calls host 1 p0).
Proof.
  cbv zeta. split; [|split].
  - vm_compute. reflexivity.
  - vm_compute. reflexivity.
  - vm_compute. discriminate.
Qed.

(** C10: the iterator that [filter] hands back yields no element: every
    request made to it raises [StopIteration], so a host that drains it
    receives the empty sequence; and the first request writes the whole
    backtrace -- the text [__str__] returns for each frame with its depth,
    joined by line breaks -- with one [print]. *)
Theorem proxy_yields_nothing (host : Host) (frames : list RawFrame)
    (out : list string) :
  let p0 := ColourFilter.filter frames out in
  (forall n : nat,
      fst (FilterProxy.__next__ host (after_calls host n p0)) = Raise StopIteration) /\
  (forall fuel : nat, fst (FilterProxy.drain (S fuel) host p0) = Ok []) /\
  stdout (snd (FilterProxy.__next__ host p0))
  = (out ++ [(backtrace host frames ++ String "010" "")%string])%list /\
  (forall self : FrameColorizer,
      Colorizer.__str__ host self = Ok (str_text host self)).
Proof.
  cbv zeta. split; [|split; [|split]].
  - intros n. apply next_stops.
  - intros fuel. cbn [FilterProxy.drain]. now rewrite next_first.
  - now rewrite next_first.
  - apply str_text_ok.
Qed.

(** * Further properties *)

(** ** The outcomes of [length] *)

Lemma hidden_none_unterminated (s : string) :
  forall st : bool,
    hidden st s = None ->
    (st = true /\ contains "m" s = false) \/
    exists pre rest, s = pre ++ String ESC rest /\ contains "m" rest = false.
Proof.
  induction s as [|c s IH]; intros st.
  - destruct st; cbn [hidden]; [intros _; now left | discriminate].
  - cbn [hidden]. destruct st.
    + destruct (hidden (negb (Ascii.eqb c "m")) s) eqn:E; cbn [option_map];
        [discriminate | intros _].
      destruct (IH _ E) as [[Hst Hm] | (pre & rest & -> & Hm)].
      * left. split; [reflexivity|]. cbn [contains].
        destruct (Ascii.eqb c "m"); [discriminate | exact Hm].
      * right. exists (String c pre), rest. now split.
    + destruct (Ascii.eqb c ESC) eqn:Ec.
      * destruct (hidden true s) eqn:E; cbn [option_map]; [discriminate | intros _].
        apply Ascii.eqb_eq in Ec. subst c.
        destruct (IH _ E) as [[_ Hm] | (pre & rest & -> & Hm)].
        -- right. exists "", s. now split.
        -- right. exists (String ESC pre), rest. now split.
      * intros E. destruct (IH _ E) as [[Hst _] | (pre & rest & -> & Hm)];
          [discriminate|].
        right. exists (String c pre), rest. now split.
Qed.

Lemma hidden_ends_m (s : string) :
  forall st : bool, hidden st (s ++ "m") <> None.
Proof.
  induction s as [|c s IH]; intros st.
  - destruct st; cbn; discriminate.
  - cbn [append hidden]. destruct st.
    + specialize (IH (negb (Ascii.eqb c "m"))).
      destruct (hidden _ (s ++ "m")); cbn [option_map]; congruence.
    + destruct (Ascii.eqb c ESC).
      * specialize (IH true).
        destruct (hidden true (s ++ "m")); cbn [option_map]; congruence.
      * apply IH.
Qed.

(** [length] has two outcomes.  It returns a count between 0 and the
    length of the string, or it raises [NameError]; and it raises exactly
    on the strings in which some escape character is followed by no
    ["m"]. *)
Theorem length_outcomes (s : string) :
  ((exists v, Colorizer.length s = Ok v /\ 0 <= v <= Py.len s) \/
   Colorizer.length s = Raise NameError) /\
  (Colorizer.length s = Raise NameError <->
   exists pre rest, s = pre ++ String ESC rest /\ contains "m" rest = false).
Proof.
  split.
  - destruct (Colorizer.length s) as [v| e |] eqn:E.
    + left. exists v. split; [reflexivity | now apply length_le_len].
    + right. rewrite length_spec in E.
      destruct (hidden false s); [discriminate | congruence].
    + rewrite length_spec in E. now destruct (hidden false s).
  - split.
    + rewrite length_spec. destruct (hidden false s) eqn:E; [discriminate|].
      intros _. destruct (hidden_none_unterminated _ _ E) as [[Hst _] | H];
        [discriminate | exact H].
    + intros (pre & rest & -> & Hm). rewrite length_spec.
      now rewrite (hidden_unterminated _ _ _ Hm).
Qed.

Lemma length_outcomes_witness :
  Colorizer.length (String ESC "[0;36mmain.c" ++ String ESC "[0") = Raise NameError.
Proof.
  apply (proj2 (length_outcomes (String ESC "[0;36mmain.c" ++ String ESC "[0"))).
  exists (String ESC "[0;36mmain.c"), "[0". split; reflexivity.
Defined.

(** [length] adds up over concatenation: after a text on which it returns
    [va], the count of [a ++ b] is [va] plus the count of [b], and it raises
    exactly when it raises on [b]. *)
Theorem length_concat (a b : string) (va : Z) :
  Colorizer.length a = Ok va ->
  Colorizer.length (a ++ b)
  = match Colorizer.length b with
    | Ok vb => Ok (va + vb)
    | other => other
    end.
Proof.
  rewrite !length_spec.
  destruct (hidden false a) as [ha|] eqn:Ea; [|discriminate].
  intros [= <-]. rewrite (hidden_app _ _ b _ Ea).
  destruct (hidden false b) as [hb|]; cbn [option_map]; [|reflexivity].
  f_equal. rewrite len_app. lia.
Qed.

Lemma length_concat_witness :
  Colorizer.length (function_colour "main" ++ " (argc=1)") = Ok (4 + 9) /\
  Colorizer.length (function_colour "main" ++ String ESC "[1;3") = Raise NameError.
Proof.
  split.
  - apply (length_concat (function_colour "main") " (argc=1)" 4). reflexivity.
  - apply (length_concat (function_colour "main") (String ESC "[1;3") 4). reflexivity.
Defined.

(** ** What [__str__] builds *)

Lemma part3_text (self : FrameColorizer) :
  Colorizer.part3 self
  = esc "[0;36m" ++ filename_text self ++ esc "[0m"
    ++ (if has_line self
        then esc "[0;35m:"
             ++ Py.fmt_d (match frame_line (frame self) with
                          | Some value => value
                          | None => 0%N
                          end)
             ++ esc "[0m"
        else "").
Proof.
  unfold Colorizer.part3, Colorizer.filename, Colorizer.line, filename_text, has_line.
  destruct (frame_line (frame self)) as [value|]; cbn [negb].
  - destruct (value =? 0)%N; cbn [negb]; now rewrite !append_assoc.
  - now rewrite !append_assoc.
Qed.

Lemma part3_ends_m (self : FrameColorizer) :
  exists x, Colorizer.part3 self = x ++ "m".
Proof.
  rewrite part3_text.
  change (esc "[0m") with (String ESC "[0" ++ "m").
  destruct (has_line self).
  - eexists. rewrite <- !append_assoc. reflexivity.
  - eexists. rewrite append_nil_r, <- !append_assoc. reflexivity.
Qed.

(** Both forms of the rendered frame end with [" at "] and [part3]. *)
Lemma str_ends_with_part3 (host : Host) (self : FrameColorizer) :
  exists text pre,
    Colorizer.__str__ host self = Ok text /\
    text = pre ++ " at " ++ Colorizer.part3 self.
Proof.
  destruct (part2_returns host self) as [p Hp].
  destruct (str_cases host self p Hp) as (_ & Hshort & Hlong).
  destruct (Z.le_gt_cases
              (Py.len (Colorizer.part1 host self ++ p ++ " at " ++ Colorizer.part3 self))
              Colorizer.get_screen_width) as [H|H].
  - eexists. exists (Colorizer.part1 host self ++ p).
    split; [exact (Hshort H)|]. now rewrite !append_assoc.
  - eexists.
    exists (Colorizer.part1 host self ++ p ++ String "010" ""
            ++ Py.repeat_nat " "
                 (Z.to_nat (pieces_visible (part1_pieces host self) - 1
                            - 3 * Py.int_of_bool (print_address host)))).
    split; [exact (Hlong H)|]. unfold two_lines. now rewrite !append_assoc.
Qed.

(** [length] is defined on everything [__str__] builds, whatever the texts
    of the frame contain: the single line and the returned text end with
    the ["m"] of a reset sequence, so no escape character in them -- not
    even a stray one in a function name, an argument or a file name -- is
    left without an ["m"] after it. *)
Theorem length_of_rendered (host : Host) (self : FrameColorizer) :
  exists (line text : string) (v w : Z),
    Colorizer.parts host self = Ok line /\
    Colorizer.length line = Ok v /\ 0 <= v <= Py.len line /\
    Colorizer.__str__ host self = Ok text /\
    Colorizer.length text = Ok w /\ 0 <= w <= Py.len text.
Proof.
  destruct (part3_ends_m self) as [x Hx].
  assert (Hdefined : forall pre,
             exists v, Colorizer.length (pre ++ " at " ++ Colorizer.part3 self) = Ok v).
  { intros pre. rewrite Hx, length_spec.
    replace (pre ++ " at " ++ x ++ "m") with ((pre ++ " at " ++ x) ++ "m")
      by now rewrite !append_assoc.
    pose proof (hidden_ends_m (pre ++ " at " ++ x) false) as Hm.
    destruct (hidden false ((pre ++ " at " ++ x) ++ "m")); [eauto | contradiction]. }
  destruct (part2_returns host self) as [p Hp].
  destruct (str_cases host self p Hp) as (Hline & _ & _).
  destruct (str_ends_with_part3 host self) as (text & pre & Htext & ->).
  destruct (Hdefined (Colorizer.part1 host self ++ p)) as [v Hv].
  destruct (Hdefined pre) as [w Hw].
  rewrite append_assoc in Hv.
  eexists. exists (pre ++ " at " ++ Colorizer.part3 self), v, w.
  split; [exact Hline|]. split; [exact Hv|].
  split; [now apply length_le_len|]. split; [exact Htext|].
  split; [exact Hw | now apply length_le_len].
Qed.

(** A frame without a line number -- [None], or the number 0 -- is
    rendered with nothing after the file name: no colon and no digits; and
    a frame without a file name shows the text [None] in its place. *)
Theorem str_without_line (host : Host) (self : FrameColorizer) :
  frame_line (frame self) = None \/ frame_line (frame self) = Some 0%N ->
  exists text pre,
    Colorizer.__str__ host self = Ok text /\
    text = pre ++ " at " ++ esc "[0;36m"
           ++ match frame_filename (frame self) with
              | Some f => f
              | None => "None"
              end
           ++ esc "[0m".
Proof.
  intros Hline.
  destruct (str_ends_with_part3 host self) as (text & pre & Htext & ->).
  exists (pre ++ " at " ++ Colorizer.part3 self), pre.
  split; [exact Htext|]. rewrite part3_text. unfold has_line, filename_text.
  destruct Hline as [-> | ->]; cbn [N.eqb negb]; now rewrite append_nil_r.
Qed.

Lemma str_without_line_witness :
  exists text pre,
    Colorizer.__str__ (host_answering false "") (address_frame 4198742) = Ok text /\
    text = pre ++ " at " ++ esc "[0;36m" ++ "None" ++ esc "[0m".
Proof.
  apply (str_without_line (host_answering false "") (address_frame 4198742)).
  left. reflexivity.
Defined.

(** ** Which symbols [frame_args] shows *)

Lemma function_block_chain (before : list Block) :
  forall (b block : Block) (after : list Block),
    chain b = (before ++ block :: after)%list ->
    Forall (fun x => block_function x = None) before ->
    block_function block <> None ->
    Colorizer.function_block b = Some block.
Proof.
  induction before as [|x before IH]; intros b block after Hchain Hnone Hsome.
  - destruct b as [f syms sup]. cbn [List.app] in Hchain.
    assert (block = mkBlock f syms sup) as ->
      by (destruct sup; cbn [chain] in Hchain; congruence).
    cbn [block_function] in Hsome. cbn [Colorizer.function_block].
    destruct f; [reflexivity | contradiction].
  - destruct b as [f syms sup]. cbn [List.app] in Hchain.
    apply Forall_cons_iff in Hnone as [Hx Hnone].
    assert (x = mkBlock f syms sup) as ->
      by (destruct sup; cbn [chain] in Hchain; congruence).
    cbn [block_function] in Hx. subst f.
    destruct sup as [sup|]; cbn [chain] in Hchain.
    + cbn [Colorizer.function_block]. apply (IH sup block after); try assumption.
      congruence.
    + destruct before; discriminate.
Qed.

Lemma function_block_none (b : Block) :
  Forall (fun x => block_function x = None) (chain b) ->
  Colorizer.function_block b = None.
Proof.
  revert b. fix IH 1. intros [f syms sup] H.
  cbn [chain] in H. apply Forall_cons_iff in H as [Hf H].
  cbn [block_function] in Hf. subst f.
  destruct sup as [sup|]; cbn [Colorizer.function_block]; [|reflexivity].
  apply IH. exact H.
Qed.

(** The arguments shown are those of the nearest block, from the frame's
    own block outwards, that has a function: the symbols of the blocks
    nested inside it are passed over.  When no block around the frame has a
    function, the argument list is empty. *)
Theorem frame_args_nearest_function (self : FrameColorizer) (b : Block) :
  frame_block (frame self) = BlockFound b ->
  (forall (before after : list Block) (block : Block),
      chain b = (before ++ block :: after)%list ->
      Forall (fun x => block_function x = None) before ->
      block_function block <> None ->
      Colorizer.frame_args self
      = Ok (Py.join ", "
              (map Colorizer.arg_entry
                 (List.filter is_argument (block_symbols block))))) /\
  (Forall (fun x => block_function x = None) (chain b) ->
   Colorizer.frame_args self = Ok "").
Proof.
  intros Hb. split.
  - intros before after block Hchain Hnone Hsome.
    unfold Colorizer.frame_args, Colorizer.block_call. rewrite Hb. cbn [bind].
    now rewrite (function_block_chain _ _ _ _ Hchain Hnone Hsome).
  - intros Hnone.
    unfold Colorizer.frame_args, Colorizer.block_call. rewrite Hb. cbn [bind].
    now rewrite (function_block_none _ Hnone).
Qed.

Lemma frame_args_nearest_function_witness :
  Colorizer.frame_args {| _depth := 0; frame := main_frame |} = Ok "argc=1, argv" /\
  Colorizer.frame_args
    (with_block {| _depth := 0; frame := main_frame |}
       (mkBlock None
          [ {| sym_str := "i"; is_argument := false; value_str := "0" |} ] None))
  = Ok "".
Proof.
  split.
  - apply (proj1 (frame_args_nearest_function
                    {| _depth := 0; frame := main_frame |} main_block eq_refl)
             [mkBlock None []
                (Some (mkBlock (Some "main")
                   [ {| sym_str := "argc"; is_argument := true; value_str := "1" |};
                     {| sym_str := "tmp"; is_argument := false; value_str := "7" |};
                     {| sym_str := "argv"; is_argument := true; value_str := "" |} ]
                   None))]
             []
             (mkBlock (Some "main")
                [ {| sym_str := "argc"; is_argument := true; value_str := "1" |};
                  {| sym_str := "tmp"; is_argument := false; value_str := "7" |};
                  {| sym_str := "argv"; is_argument := true; value_str := "" |} ]
                None)).
    + reflexivity.
    + repeat constructor.
    + discriminate.
  - apply (proj2 (frame_args_nearest_function
                    (with_block {| _depth := 0; frame := main_frame |}
                       (mkBlock None
                          [ {| sym_str := "i"; is_argument := false; value_str := "0" |} ]
                          None))
                    _ eq_refl)).
    repeat constructor.
Defined.

Lemma function_block_nest (outer : list (list Symbol)) (f : string)
    (syms : list Symbol) (sup : option Block) :
  Colorizer.function_block (nest outer (mkBlock (Some f) syms sup))
  = Some (mkBlock (Some f) syms sup).
Proof.
  induction outer as [|inner outer IH]; cbn [nest Colorizer.function_block];
    [reflexivity | exact IH].
Qed.

(** Symbols that are not arguments never reach the argument list: a local
    variable added anywhere among the symbols of the function's block
    leaves [frame_args] as it was, whether that block is the frame's own
    or is reached from it through any number of function-less blocks. *)
Theorem frame_args_skips_locals (self : FrameColorizer)
    (outer : list (list Symbol)) (f : string)
    (syms1 syms2 : list Symbol) (sym : Symbol) (sup : option Block) :
  is_argument sym = false ->
  Colorizer.frame_args
    (with_block self (nest outer (mkBlock (Some f) (syms1 ++ sym :: syms2) sup)))
  = Colorizer.frame_args
      (with_block self (nest outer (mkBlock (Some f) (syms1 ++ syms2) sup))).
Proof.
  intros Hlocal.
  unfold Colorizer.frame_args, Colorizer.block_call, with_block.
  cbn [frame frame_block bind]. rewrite !function_block_nest.
  cbn [block_symbols].
  rewrite !List.filter_app. cbn [List.filter]. now rewrite Hlocal.
Qed.

Lemma frame_args_skips_locals_witness :
  Colorizer.frame_args
    (with_block (address_frame 4198742)
       (nest [[ {| sym_str := "i"; is_argument := false; value_str := "0" |} ]; []]
          (mkBlock (Some "main")
             ([ {| sym_str := "argc"; is_argument := true; value_str := "1" |} ]
              ++ {| sym_str := "tmp"; is_argument := false; value_str := "7" |}
                 :: [ {| sym_str := "argv"; is_argument := true; value_str := "" |} ])
             None)))
  = Colorizer.frame_args
      (with_block (address_frame 4198742)
         (nest [[ {| sym_str := "i"; is_argument := false; value_str := "0" |} ]; []]
            (mkBlock (Some "main")
               ([ {| sym_str := "argc"; is_argument := true; value_str := "1" |} ]
                ++ [ {| sym_str := "argv"; is_argument := true; value_str := "" |} ])
               None))).
Proof.
  apply (frame_args_skips_locals (address_frame 4198742)
           [[ {| sym_str := "i"; is_argument := false; value_str := "0" |} ]; []]
           "main"
           [ {| sym_str := "argc"; is_argument := true; value_str := "1" |} ]
           [ {| sym_str := "argv"; is_argument := true; value_str := "" |} ]
           {| sym_str := "tmp"; is_argument := false; value_str := "7" |} None).
  reflexivity.
Defined.

(** ** The depths of a backtrace *)

Lemma numbered_nth (frames : list RawFrame) :
  forall (ix k : nat) (f : RawFrame),
    nth_error frames k = Some f ->
    nth_error (numbered ix frames) k = Some {| _depth := ix + k; frame := f |}.
Proof.
  induction frames as [|g frames IH]; intros ix k f; destruct k as [|k];
    cbn [nth_error numbered]; try discriminate.
  - intros [= ->]. now rewrite Nat.add_0_r.
  - intros H. rewrite (IH (S ix) k f H). do 2 f_equal. lia.
Qed.

Lemma numbered_length (frames : list RawFrame) (ix : nat) :
  List.length (numbered ix frames) = List.length frames.
Proof.
  revert ix. induction frames as [|f frames IH]; intros ix; cbn;
    [reflexivity | now rewrite IH].
Qed.

(** The generator hands every frame of the host's iterator to [__str__]
    with its position as depth, counted from 0: the first request prints
    one text per frame, the text at position [k] being that of the frame
    the host yields at position [k], rendered with depth [k].  Of an empty
    sequence it prints an empty line. *)
Theorem backtrace_depths (host : Host) (frames : list RawFrame)
    (out : list string) :
  exists texts : list string,
    fst (FilterProxy.collect (S (List.length frames)) host
           (ColourFilter.filter frames out)) = Ok texts /\
    stdout (snd (FilterProxy.__next__ host (ColourFilter.filter frames out)))
    = (out ++ [(Py.join (String "010" "") texts ++ String "010" "")%string])%list /\
    List.length texts = List.length frames /\
    (forall (k : nat) (f : RawFrame),
        nth_error frames k = Some f ->
        exists text,
          Colorizer.__str__ host {| _depth := k; frame := f |} = Ok text /\
          nth_error texts k = Some text) /\
    (frames = [] -> texts = []).
Proof.
  exists (map (str_text host) (numbered 0 frames)).
  split; [|split; [|split; [|split]]].
  - unfold ColourFilter.filter, FilterProxy.init.
    now rewrite collect_running by lia.
  - now rewrite next_first.
  - now rewrite List.length_map, numbered_length.
  - intros k f Hk. exists (str_text host {| _depth := k; frame := f |}).
    split; [apply str_text_ok|].
    apply (map_nth_error (str_text host)). now apply (numbered_nth frames 0 k f).
  - now intros ->.
Qed.

Lemma backtrace_depths_witness :
  exists texts : list string,
    fst (FilterProxy.collect 3 (host_answering false "")
           (ColourFilter.filter [main_frame; template_frame] [])) = Ok texts /\
    (exists text,
        Colorizer.__str__ (host_answering false "")
          {| _depth := 1; frame := template_frame |} = Ok text /\
        nth_error texts 1 = Some text).
Proof.
  destruct (backtrace_depths (host_answering false "")
              [main_frame; template_frame] [])
    as (texts & Hcollect & _ & _ & Hnth & _).
  exists texts. split; [exact Hcollect|].
  apply (Hnth 1%nat template_frame). reflexivity.
Defined.

(** ** Registration *)

Lemma getitem_setitem_same (d : ColourFilter.registry) (key : string)
    (value : ColourFilter.t) :
  ColourFilter.getitem (ColourFilter.setitem d key value) key = Some value.
Proof.
  induction d as [|[k v] d IH]; cbn [ColourFilter.setitem ColourFilter.getitem].
  - now rewrite String.eqb_refl.
  - destruct (String.eqb k key) eqn:E; cbn [ColourFilter.getitem].
    + now rewrite String.eqb_refl.
    + now rewrite E.
Qed.

Lemma getitem_setitem_other (d : ColourFilter.registry) (key other : string)
    (value : ColourFilter.t) :
  other <> key ->
  ColourFilter.getitem (ColourFilter.setitem d key value) other
  = ColourFilter.getitem d other.
Proof.
  intros Hne. apply String.eqb_neq in Hne.
  induction d as [|[k v] d IH]; cbn [ColourFilter.setitem ColourFilter.getitem].
  - rewrite String.eqb_sym. now rewrite Hne.
  - destruct (String.eqb k key) eqn:E; cbn [ColourFilter.getitem].
    + apply String.eqb_eq in E. subst k.
      rewrite String.eqb_sym. now rewrite Hne.
    + now rewrite IH.
Qed.

Lemma setitem_keys (d : ColourFilter.registry) (key : string)
    (value : ColourFilter.t) :
  map fst (ColourFilter.setitem d key value)
  = match ColourFilter.getitem d key with
    | Some _ => map fst d
    | None => (map fst d ++ [key])%list
    end.
Proof.
  induction d as [|[k v] d IH]; cbn [ColourFilter.setitem ColourFilter.getitem map fst];
    [reflexivity|].
  destruct (String.eqb k key) eqn:E; cbn [map fst].
  - apply String.eqb_eq in E. now subst k.
  - rewrite IH. now destruct (ColourFilter.getitem d key).
Qed.

(** Creating a filter registers it in [frame_filters] under its name:
    looking the name up afterwards gives the new filter, with the
    attributes it was created with; every other name keeps what it had; a
    name registered before keeps its place and only changes its filter,
    and a new name goes to the end.  So loading the script leaves
    ["backtrace-filter"] bound to an enabled filter of priority 0. *)
Theorem init_registers (name_ : string) (priority_ : Z) (enabled_ : bool)
    (frame_filters : ColourFilter.registry) :
  let self := fst (ColourFilter.__init__ name_ priority_ enabled_ frame_filters) in
  let after := snd (ColourFilter.__init__ name_ priority_ enabled_ frame_filters) in
  ColourFilter.getitem after name_ = Some self /\
  (ColourFilter.name self, ColourFilter.priority self, ColourFilter.enabled self)
  = (name_, priority_, enabled_) /\
  (forall other, other <> name_ ->
     ColourFilter.getitem after other = ColourFilter.getitem frame_filters other) /\
  map fst after
  = match ColourFilter.getitem frame_filters name_ with
    | Some _ => map fst frame_filters
    | None => (map fst frame_filters ++ [name_])%list
    end /\
  ColourFilter.getitem (ColourFilter.load frame_filters) "backtrace-filter"
  = Some {| ColourFilter.name := "backtrace-filter";
            ColourFilter.priority := 0; ColourFilter.enabled := true |}.
Proof.
  cbv zeta. unfold ColourFilter.load, ColourFilter.__init__.
  cbn [fst snd ColourFilter.name ColourFilter.priority ColourFilter.enabled].
  split; [apply getitem_setitem_same | split; [reflexivity | split; [|split]]].
  - intros other Hne. now apply getitem_setitem_other.
  - apply setitem_keys.
  - apply getitem_setitem_same.
Qed.

Lemma init_registers_witness :
  let older := {| ColourFilter.name := "backtrace-filter";
                  ColourFilter.priority := 5; ColourFilter.enabled := false |} in
  let d := [("inline", older); ("backtrace-filter", older)] in
  ColourFilter.getitem (ColourFilter.load d) "inline" = Some older /\
  map fst (ColourFilter.load d) = ["inline"; "backtrace-filter"].
Proof.
  cbv zeta. split.
  - apply (init_registers "backtrace-filter" 0 true). discriminate.
  - apply (init_registers "backtrace-filter" 0 true).
Defined.

(** ** Offsets *)

Lemma digit_not_space (c : ascii) :
  Py.is_digit c = true -> Py.int_isspace c = false.
Proof.
  unfold Py.is_digit, Py.int_isspace. cbv zeta.
  intros H. apply andb_true_iff in H as [Hlo Hhi].
  apply N.leb_le in Hlo, Hhi.
  repeat match goal with
         | |- context [(?a <=? ?b)%N] => destruct (N.leb_spec a b)
         | |- context [(?a =? ?b)%N] => destruct (N.eqb_spec a b)
         end; cbn; try reflexivity; lia.
Qed.

Lemma int_rstrip_no_space (s : string) :
  all_chars (fun c => negb (Py.int_isspace c)) s = true -> Py.int_rstrip s = s.
Proof.
  induction s as [|c s IH]; cbn [all_chars Py.int_rstrip]; [reflexivity|].
  intros H. apply andb_true_iff in H as [Hc Hs].
  rewrite (IH Hs). apply negb_true_iff in Hc. rewrite Hc. now destruct s.
Qed.

Lemma int_strip_no_space (s : string) :
  all_chars (fun c => negb (Py.int_isspace c)) s = true ->
  Py.int_rstrip (Py.int_lstrip s) = s.
Proof.
  intros H.
  assert (Hl : Py.int_lstrip s = s).
  { destruct s as [|c s]; [reflexivity|]. cbn [all_chars] in H.
    apply andb_true_iff in H as [Hc _]. apply negb_true_iff in Hc.
    cbn [Py.int_lstrip]. now rewrite Hc. }
  rewrite Hl. now apply int_rstrip_no_space.
Qed.

Lemma all_chars_weaken (f g : ascii -> bool) (s : string) :
  (forall c, f c = true -> g c = true) ->
  all_chars f s = true -> all_chars g s = true.
Proof.
  intros Hfg. induction s as [|c s IH]; cbn [all_chars]; [reflexivity|].
  intros H. apply andb_true_iff in H as [Hc Hs].
  now rewrite (Hfg _ Hc), (IH Hs).
Qed.

Lemma dec_digits_are_digits (u : Decimal.uint) :
  all_chars Py.is_digit (DecimalString.NilEmpty.string_of_uint u) = true.
Proof. induction u; cbn; assumption || reflexivity. Qed.

Lemma count_digits_all (s : string) :
  all_chars Py.is_digit s = true ->
  Py.count_digits s = N.of_nat (String.length s).
Proof.
  induction s as [|c s IH]; cbn [all_chars Py.count_digits String.length];
    [reflexivity|].
  intros H. apply andb_true_iff in H as [Hc Hs].
  rewrite Hc, (IH Hs). lia.
Qed.

(** Reading the digits of [u] after those of [d'] (least significant
    first) gives the number written by both. *)
Lemma parse_digits_uint (u : Decimal.uint) :
  forall (d' : Decimal.uint) (after_digit : bool),
    after_digit = true \/ u <> Decimal.Nil ->
    Py.parse_digits (DecimalPos.Unsigned.of_lu d') after_digit
      (DecimalString.NilEmpty.string_of_uint u)
    = Some (DecimalPos.Unsigned.of_lu (Decimal.revapp u d')).
Proof.
  induction u as [|u IH|u IH|u IH|u IH|u IH|u IH|u IH|u IH|u IH|u IH];
    intros d' b Hb;
    [ destruct Hb as [-> | Hb]; [reflexivity | contradiction] | .. ];
    cbn [DecimalString.NilEmpty.string_of_uint Py.parse_digits Decimal.revapp];
    match goal with
    | |- context [Py.is_digit ?c] => change (Py.is_digit c) with true
    end; cbv iota;
    match goal with
    | |- context [Py.digit_val ?c] =>
        let v := eval vm_compute in (Py.digit_val c) in
        change (Py.digit_val c) with v
    end;
    match goal with
    | |- _ = Some (DecimalPos.Unsigned.of_lu (Decimal.revapp _ ?d)) =>
        rewrite <- (IH d true) by (now left)
    end; f_equal;
    cbn [DecimalPos.Unsigned.of_lu]; lia.
Qed.

Lemma dec_string_size (u : Decimal.uint) :
  N.of_nat (String.length (DecimalString.NilEmpty.string_of_uint u))
  = DecimalPos.Unsigned.usize u.
Proof.
  induction u; cbn [DecimalString.NilEmpty.string_of_uint String.length
                      DecimalPos.Unsigned.usize];
    [reflexivity | rewrite Nat2N.inj_succ, IHu; reflexivity ..].
Qed.

(** The digits of a positive number start with a digit other than 0. *)
Lemma to_uint_head (p : positive) :
  Pos.to_uint p <> Decimal.Nil /\ forall u, Pos.to_uint p <> Decimal.D0 u.
Proof.
  split; [apply DecimalPos.Unsigned.to_uint_nonnil|].
  intros u Hu.
  pose proof (DecimalPos.Unsigned.to_of (Pos.to_uint p)) as Hnorm.
  rewrite DecimalPos.Unsigned.of_to in Hnorm.
  change (N.to_uint (N.pos p)) with (Pos.to_uint p) in Hnorm.
  assert (Hhead : Decimal.nzhead (Pos.to_uint p) <> Decimal.Nil).
  { intros Hnil. apply DecimalFacts.unorm_0 in Hnil.
    rewrite <- Hnorm in Hnil.
    now apply (DecimalPos.Unsigned.to_uint_nonzero p). }
  rewrite (DecimalFacts.unorm_nzhead _ Hhead) in Hnorm.
  rewrite Hu in Hnorm at 1.
  now apply (DecimalFacts.nzhead_nonzero (Pos.to_uint p) u).
Qed.

(** A number below [10 ^ k] is written with at most [k] digits. *)
Lemma dec_length_bound (k n : N) :
  (0 < k)%N -> (n < 10 ^ k)%N ->
  (N.of_nat (String.length (Py.dec_digits n)) <= k)%N.
Proof.
  intros Hk Hn. unfold Py.dec_digits.
  destruct n as [|p]; [cbn; lia|].
  change (N.to_uint (N.pos p)) with (Pos.to_uint p).
  destruct (to_uint_head p) as [Hnil Hzero].
  pose proof (DecimalPos.Unsigned.of_to p) as Hvalue.
  rewrite DecimalPos.Unsigned.of_uint_alt in Hvalue.
  unfold Decimal.rev in Hvalue.
  destruct (Pos.to_uint p) as [|u|u|u|u|u|u|u|u|u|u];
    [ contradiction | now specialize (Hzero u) | .. ];
    cbn [Decimal.revapp] in Hvalue;
    rewrite DecimalPos.Unsigned.of_lu_revapp in Hvalue;
    cbn [DecimalPos.Unsigned.of_lu] in Hvalue;
    cbn [DecimalString.NilEmpty.string_of_uint String.length];
    pose proof (dec_string_size u) as Hsize;
    (assert (Hpow : (10 ^ DecimalPos.Unsigned.usize u < 10 ^ k)%N)
       by (set (P := (10 ^ DecimalPos.Unsigned.usize u)%N) in *;
           set (Q := (10 ^ k)%N) in *; lia));
    apply N.pow_lt_mono_r_iff in Hpow; lia.
Qed.

(** [int] reads back what ['%d'] writes, within the limit on digits. *)
Lemma int_of_decimal (n : N) :
  (n < 10 ^ Py.int_max_str_digits)%N -> Py.int (Py.fmt_d n) = Ok (Z.of_N n).
Proof.
  intros Hn.
  assert (Hcount : (Py.int_max_str_digits
                    <? Py.count_digits (Py.dec_digits n))%N = false).
  { apply N.ltb_ge.
    unfold Py.dec_digits at 1. rewrite count_digits_all by apply dec_digits_are_digits.
    now apply dec_length_bound. }
  clear Hn. unfold Py.int, Py.fmt_d. unfold Py.dec_digits in *.
  rewrite int_strip_no_space
    by (apply (all_chars_weaken Py.is_digit);
        [ intros c Hc; now rewrite (digit_not_space c Hc)
        | apply dec_digits_are_digits ]).
  assert (Hvalue : Py.parse_digits 0 false
                     (DecimalString.NilEmpty.string_of_uint (N.to_uint n))
                   = Some n).
  { change 0%N with (DecimalPos.Unsigned.of_lu Decimal.Nil).
    rewrite parse_digits_uint.
    - change (Decimal.revapp (N.to_uint n) Decimal.Nil)
        with (Decimal.rev (N.to_uint n)).
      rewrite <- DecimalPos.Unsigned.of_uint_alt.
      f_equal. apply DecimalN.Unsigned.of_to.
    - right. destruct n as [|p]; [discriminate|].
      apply DecimalPos.Unsigned.to_uint_nonnil. }
  destruct (N.to_uint n) eqn:E;
    [ destruct n as [|p]; [discriminate|];
      now apply DecimalPos.Unsigned.to_uint_nonnil in E | .. ];
    cbn [DecimalString.NilEmpty.string_of_uint] in *;
    now rewrite Hvalue, Hcount.
Qed.

Lemma rsplit_last_app (sep : ascii) (before tail : string) :
  contains sep tail = false ->
  Py.rsplit_last sep (before ++ String sep tail) = Some (before, tail).
Proof.
  intros Htail. induction before as [|c before IH]; cbn [append Py.rsplit_last].
  - now rewrite (rsplit_last_none _ _ Htail), Ascii.eqb_refl.
  - now rewrite IH.
Qed.

Lemma dec_digits_no_space (n : N) : contains " " (Py.fmt_d n) = false.
Proof.
  unfold Py.fmt_d, Py.dec_digits. induction (N.to_uint n); cbn; assumption || reflexivity.
Qed.

(** An offset inside a 64-bit address space is far below the limit. *)
Lemma offset_within_limit (n : N) :
  (n < 2 ^ 64)%N -> (n < 10 ^ Py.int_max_str_digits)%N.
Proof.
  intros Hn. apply (N.lt_le_trans _ (10 ^ 20)).
  - apply (N.lt_trans _ _ _ Hn). reflexivity.
  - apply N.pow_le_mono_r; [discriminate|]. unfold Py.int_max_str_digits. lia.
Qed.

(** For a frame known by its address, whenever the text left of the
    ["in section"] marker ends, once stripped, with a space and a decimal
    number that [int] accepts -- one of at most 4300 digits, as is every
    offset of a 64-bit address space --, [function] returns the text before
    that space, a space, and the number in hexadecimal, in the
    function-name colour: the decimal offset that GDB prints is read back
    exactly and shown as [hex] writes it. *)
Theorem function_offset_in_hex (host : Host) (self : FrameColorizer) (pc : N)
    (symbol before : string) (offset : N) :
  frame_function (frame self) = AddressOnly pc ->
  execute host ("info symbol 0x" ++ Py.fmt_016x pc) = symbol ->
  Py.strip (Py.slice_to symbol (Py.find symbol "in section" 0))
  = before ++ " " ++ Py.fmt_d offset ->
  (offset < 10 ^ Py.int_max_str_digits)%N ->
  Colorizer.function host self
  = Ok (function_colour (before ++ " " ++ "0x" ++ Py.hex_digits offset)) /\
  ((offset < 2 ^ 64)%N -> (offset < 10 ^ Py.int_max_str_digits)%N).
Proof.
  intros Hfun Hexec Hname Hlimit. split; [|apply offset_within_limit].
  unfold Colorizer.function. rewrite Hfun, Hexec. cbv zeta. rewrite Hname.
  unfold Py.rsplit1.
  change (before ++ " " ++ Py.fmt_d offset)
    with (before ++ String " " (Py.fmt_d offset)).
  rewrite (rsplit_last_app " " before _ (dec_digits_no_space offset)).
  cbn [List.length Nat.eqb nth]. rewrite (int_of_decimal _ Hlimit).
  unfold Py.hex, function_colour.
  destruct (Z.ltb_spec (Z.of_N offset) 0) as [Hneg|_]; [lia|].
  rewrite N2Z.id. now rewrite !append_assoc.
Qed.

Lemma function_offset_in_hex_witness :
  Colorizer.function
    (host_answering true "__libc_start_main + 243 in section .text of /lib/libc.so.6")
    (address_frame 140737351875088)
  = Ok (function_colour ("__libc_start_main +" ++ " " ++ "0x" ++ Py.hex_digits 243)).
Proof.
  apply (function_offset_in_hex
           (host_answering true "__libc_start_main + 243 in section .text of /lib/libc.so.6")
           (address_frame 140737351875088) 140737351875088
           "__libc_start_main + 243 in section .text of /lib/libc.so.6"
           "__libc_start_main +" 243 eq_refl eq_refl eq_refl
           (offset_within_limit 243 eq_refl)).
Defined.

(** ** The width of the first-line prefix *)

Lemma dec_length_small (n : N) :
  (n < 1000)%N -> (String.length (Py.dec_digits n) <= 3)%nat.
Proof.
  intros Hn.
  assert (Hall : forallb (fun k => (String.length (Py.dec_digits (N.of_nat k)) <=? 3)%nat)
                   (seq 0 1000) = true) by (vm_compute; reflexivity).
  rewrite forallb_forall in Hall.
  specialize (Hall (N.to_nat n)). rewrite N2Nat.id in Hall.
  apply Nat.leb_le, Hall, in_seq. lia.
Qed.

Lemma hex_string_size (u : Hexadecimal.uint) :
  N.of_nat (String.length (HexadecimalString.NilEmpty.string_of_uint u))
  = HexadecimalPos.Unsigned.usize u.
Proof.
  induction u; cbn [HexadecimalString.NilEmpty.string_of_uint String.length
                      HexadecimalPos.Unsigned.usize];
    [reflexivity | rewrite Nat2N.inj_succ, IHu; reflexivity ..].
Qed.

(** The digits of a positive number start with a digit other than 0. *)
Lemma to_hex_uint_head (p : positive) :
  Pos.to_hex_uint p <> Hexadecimal.Nil /\
  forall u, Pos.to_hex_uint p <> Hexadecimal.D0 u.
Proof.
  split; [apply HexadecimalPos.Unsigned.to_uint_nonnil|].
  intros u Hu.
  pose proof (HexadecimalPos.Unsigned.to_of (Pos.to_hex_uint p)) as Hnorm.
  rewrite HexadecimalPos.Unsigned.of_to in Hnorm.
  change (N.to_hex_uint (N.pos p)) with (Pos.to_hex_uint p) in Hnorm.
  assert (Hhead : Hexadecimal.nzhead (Pos.to_hex_uint p) <> Hexadecimal.Nil).
  { intros Hnil. apply HexadecimalFacts.unorm_0 in Hnil.
    rewrite <- Hnorm in Hnil.
    now apply (HexadecimalPos.Unsigned.to_uint_nonzero p). }
  rewrite (HexadecimalFacts.unorm_nzhead _ Hhead) in Hnorm.
  rewrite Hu in Hnorm at 1.
  now apply (HexadecimalFacts.nzhead_nonzero (Pos.to_hex_uint p) u).
Qed.

Lemma hex_length_64 (a : N) :
  (a < 2 ^ 64)%N -> (String.length (Py.hex_digits a) <= 16)%nat.
Proof.
  intros Ha. unfold Py.hex_digits.
  destruct a as [|p]; [cbn; lia|].
  change (N.to_hex_uint (N.pos p)) with (Pos.to_hex_uint p).
  destruct (to_hex_uint_head p) as [Hnil Hzero].
  pose proof (HexadecimalPos.Unsigned.of_to p) as Hvalue.
  rewrite HexadecimalPos.Unsigned.of_uint_alt in Hvalue.
  unfold Hexadecimal.rev in Hvalue.
  destruct (Pos.to_hex_uint p) as [|u|u|u|u|u|u|u|u|u|u|u|u|u|u|u|u];
    [ contradiction | now specialize (Hzero u) | .. ];
    cbn [Hexadecimal.revapp] in Hvalue;
    rewrite HexadecimalPos.Unsigned.of_lu_revapp in Hvalue;
    cbn [HexadecimalPos.Unsigned.of_lu] in Hvalue;
    cbn [HexadecimalString.NilEmpty.string_of_uint String.length];
    pose proof (hex_string_size u) as Hsize;
    (assert (Hpow : (16 ^ HexadecimalPos.Unsigned.usize u < 16 ^ 16)%N)
       by (change (16 ^ 16)%N with (2 ^ 64)%N;
           set (P := (16 ^ HexadecimalPos.Unsigned.usize u)%N) in *; lia));
    apply N.pow_lt_mono_r_iff in Hpow; lia.
Qed.

Lemma fmt_d_left3_exact (n : N) :
  (n < 1000)%N -> Py.len (Py.fmt_d_left3 n) = 3.
Proof.
  intros Hn. pose proof (dec_length_small n Hn) as Hd.
  unfold Py.fmt_d_left3, Py.len. rewrite length_append, repeat_length. lia.
Qed.

Lemma fmt_016x_exact (a : N) :
  (a < 2 ^ 64)%N -> Py.len (Py.fmt_016x a) = 16.
Proof.
  intros Ha. pose proof (hex_length_64 a Ha) as Hd.
  unfold Py.fmt_016x, Py.len. rewrite length_append, repeat_length. lia.
Qed.

(** For a depth below 1000 and an address that fits in 64 bits, the
    prefix before the function shows 5 characters when addresses are hidden
    and 28 when they are shown; the continuation line of a wrapped frame
    then starts with 4 spaces, or 24, before [" at "]. *)
Theorem prefix_layout (host : Host) (self : FrameColorizer) :
  (_depth self < 1000)%nat ->
  (frame_address (frame self) < 2 ^ 64)%N ->
  Colorizer.length (Colorizer.part1 host self)
  = Ok (if print_address host then 28 else 5) /\
  forall part2_ : string,
    Colorizer.part2 host self = Ok part2_ ->
    Colorizer.get_screen_width
    < Py.len (Colorizer.part1 host self ++ part2_ ++ " at " ++ Colorizer.part3 self) ->
    Colorizer.__str__ host self
    = Ok (Colorizer.part1 host self ++ part2_ ++ String "010" ""
          ++ Py.repeat_nat " " (if print_address host then 24 else 4)
          ++ " at " ++ Colorizer.part3 self).
Proof.
  intros Hdepth Haddr.
  assert (Hwidth : pieces_visible (part1_pieces host self)
                   = if print_address host then 28 else 5).
  { unfold part1_pieces.
    pose proof (fmt_d_left3_exact (N.of_nat (_depth self)) ltac:(lia)) as Hd.
    pose proof (fmt_016x_exact _ Haddr) as Ha.
    destruct (print_address host);
      cbn [List.app pieces_visible piece_visible];
      rewrite ?len_app; change (Py.len "#") with 1; change (Py.len " ") with 1;
      change (Py.len "  ") with 2; change (Py.len "0x") with 2;
      change (Py.len " in ") with 4; lia. }
  split.
  - now rewrite part1_length, Hwidth.
  - intros part2_ Hp2 Hwide.
    destruct (str_cases host self part2_ Hp2) as (_ & _ & Hlong).
    rewrite (Hlong Hwide). unfold two_lines. rewrite Hwidth.
    now destruct (print_address host).
Qed.

Lemma prefix_layout_witness :
  Colorizer.length
    (Colorizer.part1 (host_answering true "") {| _depth := 12; frame := wide_frame |})
  = Ok 28.
Proof.
  apply (prefix_layout (host_answering true "") {| _depth := 12; frame := wide_frame |}).
  - cbn. lia.
  - reflexivity.
Defined.

(** ** What the colours cost *)

Lemma pieces_text_app (l1 l2 : list piece) :
  pieces_text (l1 ++ l2) = pieces_text l1 ++ pieces_text l2.
Proof.
  induction l1 as [|p l1 IH]; cbn [List.app pieces_text]; [reflexivity|].
  now rewrite IH, append_assoc.
Qed.

Lemma pieces_len (l : list piece) :
  Py.len (pieces_text l) = pieces_visible l + pieces_hidden l.
Proof.
  induction l as [|p l IH]; cbn [pieces_text pieces_visible pieces_hidden];
    [reflexivity|].
  rewrite len_app, IH.
  destruct p as [t|params]; cbn [piece_text piece_visible piece_hidden]; [lia|].
  unfold esc. cbn [append]. rewrite !len_cons, len_app.
  change (Py.len "m") with 1. lia.
Qed.

Lemma line_pieces_text (host : Host) (self : FrameColorizer) (name args : string) :
  frame_function (frame self) = Symbolic name ->
  Colorizer.frame_args self = Ok args ->
  Colorizer.parts host self = Ok (pieces_text (line_pieces host self name args)).
Proof.
  intros Hfun Hargs.
  unfold Colorizer.parts, Colorizer.part2, Colorizer.function.
  rewrite Hfun, Hargs. cbn [bind]. f_equal.
  unfold line_pieces.
  rewrite (pieces_text_app (part1_pieces host self)), <- part1_pieces_text.
  match goal with
  | |- context [pieces_text (?l1 ++ ?l2)%list] => rewrite (pieces_text_app l1 l2)
  end.
  rewrite part3_text. unfold has_line.
  f_equal.
  destruct (frame_line (frame self)) as [value|];
    [destruct (value =? 0)%N|]; cbn [negb pieces_text piece_text];
    unfold esc; rewrite ?append_assoc; cbn [append];
    rewrite ?append_assoc; cbn [append]; rewrite ?append_nil_r;
    reflexivity.
Qed.

Lemma line_pieces_ok (host : Host) (self : FrameColorizer) (name args : string) :
  contains ESC name = false ->
  contains ESC args = false ->
  contains ESC (filename_text self) = false ->
  Forall piece_ok (line_pieces host self name args).
Proof.
  intros Hname Hargs Hfile. unfold line_pieces.
  apply Forall_app. split; [apply part1_pieces_ok|].
  apply Forall_app. split.
  - repeat (apply Forall_cons; [|]); try apply Forall_nil;
      cbn [piece_ok contains append]; rewrite ?contains_app;
      cbn [contains]; rewrite ?Hname, ?Hargs, ?Hfile; reflexivity.
  - destruct (frame_line (frame self)) as [value|];
      [destruct (value =? 0)%N|]; try apply Forall_nil.
    repeat (apply Forall_cons; [|]); try apply Forall_nil;
      cbn [piece_ok contains append]; try reflexivity.
    unfold Py.fmt_d, Py.dec_digits. now rewrite dec_digits_plain.
Qed.

Lemma line_pieces_hidden (host : Host) (self : FrameColorizer) (name args : string) :
  pieces_hidden (line_pieces host self name args) = colour_overhead host self.
Proof.
  unfold line_pieces, colour_overhead, part1_pieces, has_line.
  destruct (print_address host);
    (destruct (frame_line (frame self)) as [value|];
     [destruct (value =? 0)%N|]); reflexivity.
Qed.

(** For a frame with a symbolic function whose name, arguments and file
    name hold no escape character, the single line is longer than what it
    shows by the colour sequences alone: 44 characters, 11 more when
    addresses are shown and 11 more when there is a line number.  Since
    [__str__] compares the full length with the width, such a frame stays
    on one line exactly when what it shows fits in 160 less that
    overhead, and is wrapped otherwise. *)
Theorem symbolic_line_budget (host : Host) (self : FrameColorizer)
    (name args : string) :
  frame_function (frame self) = Symbolic name ->
  Colorizer.frame_args self = Ok args ->
  contains ESC name = false ->
  contains ESC args = false ->
  contains ESC (filename_text self) = false ->
  exists (line : string) (v : Z),
    Colorizer.parts host self = Ok line /\
    Colorizer.length line = Ok v /\
    Py.len line = v + colour_overhead host self /\
    (v <= 160 - colour_overhead host self ->
     Colorizer.__str__ host self = Ok line) /\
    (160 - colour_overhead host self < v ->
     exists text,
       Colorizer.__str__ host self = Ok text /\
       count_nl text = S (count_nl line)).
Proof.
  intros Hfun Hargs Hname Hclean Hfile.
  pose proof (line_pieces_text host self name args Hfun Hargs) as Hparts.
  pose proof (line_pieces_ok host self name args Hname Hclean Hfile) as Hok.
  set (l := line_pieces host self name args) in *.
  exists (pieces_text l), (pieces_visible l).
  assert (Hlen : Py.len (pieces_text l) = pieces_visible l + colour_overhead host self)
    by (rewrite pieces_len; unfold l; now rewrite line_pieces_hidden).
  split; [exact Hparts|]. split.
  { rewrite length_spec, (hidden_pieces _ Hok). f_equal. lia. }
  split; [exact Hlen|].
  destruct (part2_returns host self) as [p Hp].
  destruct (str_cases host self p Hp) as (Hline & Hshort & Hlong).
  assert (Heq : Colorizer.part1 host self ++ p ++ " at " ++ Colorizer.part3 self
                = pieces_text l) by congruence.
  change Colorizer.get_screen_width with 160 in *.
  split.
  - intros Hfit. rewrite <- Heq. apply Hshort. rewrite Heq. lia.
  - intros Hwide. eexists. split.
    + apply Hlong. rewrite Heq. lia.
    + rewrite count_nl_two_lines. now rewrite Heq.
Qed.

Lemma symbolic_line_budget_witness :
  exists (line : string) (v : Z),
    Colorizer.parts (host_answering false "") {| _depth := 0; frame := template_frame |}
    = Ok line /\
    Colorizer.length line = Ok v /\
    Py.len line
    = v + colour_overhead (host_answering false "")
            {| _depth := 0; frame := template_frame |}.
Proof.
  destruct (symbolic_line_budget (host_answering false "")
              {| _depth := 0; frame := template_frame |}
              "std::vector<std::pair<std::string, std::string>, std::allocator<std::pair<std::string, std::string> > >::push_back"
              "" eq_refl eq_refl eq_refl eq_refl eq_refl)
    as (line & v & Hparts & Hlength & Hlen & _).
  exists line, v. repeat split; assumption.
Defined.
